(** * LogSim: the parser's error handler (logsim/parser_handler.py)
      and the monitor lists and canvas text of the window (logsim/gui.py)

    A shallow embedding of [ParserErrorHandler] and of the two terminal
    output classes, followed by the properties of the diagnostic
    formatter.  Python values that the handler inspects dynamically
    (the [id] of a symbol, the [name] argument of [get_error_message])
    are kept as tagged values, exceptions are explicit results, and the
    handler object together with the standard output is the state that
    the methods thread. *)

From Stdlib Require Import ZArith List String Ascii Bool Lia DecimalString.
From Stdlib Require Import DecimalPos DecimalZ Permutation Sorted.
Import ListNotations.
Open Scope string_scope.
Open Scope Z_scope.

(** ** The fragment of Python the handler relies on *)

Module Py.

(** Values whose dynamic type the handler depends on. *)
Inductive value : Type :=
| NoneV
| Int (n : Z)
| Str (s : string).

(** Truth value of an object in a condition. *)
Definition truthy (v : value) : bool :=
  match v with
  | NoneV => false
  | Int n => negb (n =? 0)
  | Str s => negb (String.eqb s "")
  end.

Inductive exn : Type :=
| ValueError (msg : string)
| TypeError (msg : string)
| IndexError (msg : string).

Definition result (A : Type) : Type := (exn + A)%type.

Definition type_name (v : value) : string :=
  match v with
  | NoneV => "NoneType"
  | Int _ => "int"
  | Str _ => "str"
  end.

(** The one-character strings that cannot be written inside a literal. *)
Definition dquote : string := String (ascii_of_nat 34) "".
Definition nl : string := String (ascii_of_nat 10) "".

(** [str(n)] for an integer, as an f-string field renders it. *)
Definition str_of_int (n : Z) : string := NilZero.string_of_int (Z.to_int n).

(** [s + v] with [s] a string: defined on strings only. *)
Definition add_str (s : string) (v : value) : result string :=
  match v with
  | Str t => inr (s ++ t)
  | _ => inl (TypeError ("can only concatenate str (not " ++ dquote
                           ++ type_name v ++ dquote ++ ") to str"))
  end.

(** [s * n]: no copy at all when [n] is not positive. *)
Fixpoint repeat_nat (s : string) (n : nat) : string :=
  match n with
  | O => ""
  | S k => s ++ repeat_nat s k
  end.

Definition mul_str (s : string) (n : Z) : string := repeat_nat s (Z.to_nat n).

(** [l[i]]: a negative index counts from the end, an index outside
    [-len, len) raises. *)
Definition getitem {A : Type} (l : list A) (i : Z) : result A :=
  let len := Z.of_nat (List.length l) in
  let j := if i <? 0 then i + len else i in
  if (j <? 0) || (len <=? j) then inl (IndexError "list index out of range")
  else match nth_error l (Z.to_nat j) with
       | Some x => inr x
       | None => inl (IndexError "list index out of range")
       end.

End Py.

(** ** Collaborators

    Only what the handler reads of each collaborator is modelled. *)

(** Modelled from the spec: the name table of the absent [names] module,
    reduced to the allocation cursor of its error-code registry
    (section 4.1: [allocate(n)] returns [n] fresh, pairwise distinct
    identifiers in monotonically increasing batches and advances the
    cursor) and the stored names. *)
Record Names : Type := {
  error_code_count : Z;
  name_list : list string
}.

Definition unique_error_codes (num_error_codes : Z) (names : Names)
  : list Z * Names :=
  (map (fun i => error_code_count names + Z.of_nat i)
       (seq 0 (Z.to_nat num_error_codes)),
   {| error_code_count := error_code_count names + num_error_codes;
      name_list := name_list names |}).

Record Devices : Type := { DEVICE_PRESENT : Z }.

Record Network : Type := {
  INPUT_CONNECTED : Z;
  PORT_ABSENT : Z;
  DEVICE_ABSENT : Z
}.

Record Monitors : Type := { MONITOR_PRESENT : Z }.

(** Modelled from the spec: the classification constants of the absent
    [scanner] module (section 3, Symbol), closed by [OTHER] for any
    classification outside the listed ones. *)
Inductive symbol_type : Type :=
| KEYWORD | NAME | NUMBER
| COMMA | SEMICOLON | COLON | FULL_STOP | ARROW
| OPEN_CURLY_BRACKET | CLOSE_CURLY_BRACKET | EOF
| OTHER (tag : Z).

Definition symbol_type_eqb (a b : symbol_type) : bool :=
  match a, b with
  | KEYWORD, KEYWORD | NAME, NAME | NUMBER, NUMBER
  | COMMA, COMMA | SEMICOLON, SEMICOLON | COLON, COLON
  | FULL_STOP, FULL_STOP | ARROW, ARROW
  | OPEN_CURLY_BRACKET, OPEN_CURLY_BRACKET
  | CLOSE_CURLY_BRACKET, CLOSE_CURLY_BRACKET | EOF, EOF => true
  | OTHER m, OTHER n => m =? n
  | _, _ => false
  end.

Record Symbol : Type := {
  type : symbol_type;
  id : Py.value;
  line : Z;
  character_in_line : Z
}.

Record Scanner : Type := { file_lines : list string }.

(** ** The two diagnostics and their rendering *)

Module LineTerminalOutput.
Record t : Type := {
  line_location : string;
  line_with_issue : string;
  arrow : string;
  message : string
}.

Definition str (self : t) : string :=
  Py.nl ++ line_location self ++ Py.nl
    ++ line_with_issue self ++ arrow self ++ Py.nl
    ++ message self ++ Py.nl.
End LineTerminalOutput.

Module FileTerminalOutput.
Record t : Type := { message : string }.

Definition str (self : t) : string :=
  Py.nl ++ "File error: " ++ message self ++ Py.nl.
End FileTerminalOutput.

(** An element of [error_output_list]. *)
Inductive TerminalOutput : Type :=
| OfLine (o : LineTerminalOutput.t)
| OfFile (o : FileTerminalOutput.t).

Definition str (o : TerminalOutput) : string :=
  match o with
  | OfLine l => LineTerminalOutput.str l
  | OfFile f => FileTerminalOutput.str f
  end.

(** ** The handler object *)

Record ParserErrorHandler : Type := {
  names : Names;
  devices : Devices;
  network : Network;
  monitors : Monitors;
  scanner : Scanner;
  error_output_list : list TerminalOutput;
  (* syntax error *)
  EXPECT_IDENTIFIER : Z;
  EXPECT_INPUT_DEVICE : Z;
  EXPECT_VARIABLE_INPUT_NUMBER : Z;
  EXPECT_CLOCK_CYCLE : Z;
  EXPECT_INITIAL_STATE : Z;
  EXPECT_PIN_IN : Z;
  EXPECT_PIN_OUT : Z;
  EXPECT_PIN_IN_OR_OUT : Z;
  EXPECT_KEYWORD : Z;
  EXPECT_OPEN_CURLY_BRACKET : Z;
  EXPECT_COMMA : Z;
  EXPECT_SEMICOLON : Z;
  EXPECT_COLON : Z;
  EXPECT_FULL_STOP_OR_SEMICOLON : Z;
  EXPECT_FULL_STOP : Z;
  EXPECT_ARROW : Z;
  EXPECT_FULL_STOP_OR_ARROW : Z;
  (* semantic error *)
  MISSING_CLOCK_OR_SWITCH : Z;
  DUPLICATE_KEYWORD : Z;
  WRONG_BLOCK_ORDER : Z;
  MONITOR_NOT_DEFINED : Z
}.

(** [__init__]: the two batches are unpacked into 17 and 4 attributes;
    unpacking a sequence of another length raises. *)
Definition init (names : Names) (devices : Devices) (network : Network)
    (monitors : Monitors) (scanner : Scanner) : Py.result ParserErrorHandler :=
  let '(syntax, names1) := unique_error_codes 17 names in
  match syntax with
  | [c1; c2; c3; c4; c5; c6; c7; c8; c9; c10; c11; c12; c13; c14; c15; c16; c17] =>
      let '(semantic, names2) := unique_error_codes 4 names1 in
      match semantic with
      | [s1; s2; s3; s4] =>
          inr {| names := names2; devices := devices; network := network;
                 monitors := monitors; scanner := scanner;
                 error_output_list := [];
                 EXPECT_IDENTIFIER := c1; EXPECT_INPUT_DEVICE := c2;
                 EXPECT_VARIABLE_INPUT_NUMBER := c3; EXPECT_CLOCK_CYCLE := c4;
                 EXPECT_INITIAL_STATE := c5; EXPECT_PIN_IN := c6;
                 EXPECT_PIN_OUT := c7; EXPECT_PIN_IN_OR_OUT := c8;
                 EXPECT_KEYWORD := c9; EXPECT_OPEN_CURLY_BRACKET := c10;
                 EXPECT_COMMA := c11; EXPECT_SEMICOLON := c12;
                 EXPECT_COLON := c13; EXPECT_FULL_STOP_OR_SEMICOLON := c14;
                 EXPECT_FULL_STOP := c15; EXPECT_ARROW := c16;
                 EXPECT_FULL_STOP_OR_ARROW := c17;
                 MISSING_CLOCK_OR_SWITCH := s1; DUPLICATE_KEYWORD := s2;
                 WRONG_BLOCK_ORDER := s3; MONITOR_NOT_DEFINED := s4 |}
      | _ => inl (Py.ValueError "unpack: expected 4 values")
      end
  | _ => inl (Py.ValueError "unpack: expected 17 values")
  end.

(** ** The message catalog *)

(** [get_error_message]: the label is quoted first, then tested, then
    the chain of comparisons picks the template. *)
Definition get_error_message (self : ParserErrorHandler) (error_code : Z)
    (name : Py.value) : Py.result string :=
  match Py.add_str Py.dquote name with
  | inl e => inl e
  | inr quoted =>
    let name := quoted ++ Py.dquote in
    if negb (error_code =? MISSING_CLOCK_OR_SWITCH self)
       && negb (Py.truthy (Py.Str name))
    then inl (Py.TypeError ("error_code = " ++ Py.str_of_int error_code
                ++ " has 1 required positional argument: 'name'"))
    (* syntax error *)
    else if error_code =? EXPECT_IDENTIFIER self then
      inr ("Found " ++ name ++ ", expected a non-keyword identifier")
    else if error_code =? EXPECT_INPUT_DEVICE self then
      inr ("Found " ++ name ++ ", expected 'AND', 'NAND', 'OR', 'NOR', 'XOR' or 'DTYPE'")
    else if error_code =? EXPECT_VARIABLE_INPUT_NUMBER self then
      inr ("Found " ++ name ++ ", expected integer between 1 and 16")
    else if error_code =? EXPECT_CLOCK_CYCLE self then
      inr ("Found " ++ name ++ ", expected positive integer with no leading zero")
    else if error_code =? EXPECT_INITIAL_STATE self then
      inr ("Found " ++ name ++ ", expected 0 or 1")
    else if error_code =? EXPECT_PIN_IN self then
      inr ("Found " ++ name ++ ", expected 'I1-16', 'DATA', 'CLK', 'SET' or 'CLEAR'")
    else if error_code =? EXPECT_PIN_OUT self then
      inr ("Found " ++ name ++ ", expected 'Q' or 'QBAR'")
    else if error_code =? EXPECT_PIN_IN_OR_OUT self then
      inr ("Found " ++ name ++ ", expected 'I1-16', 'DATA', 'CLK', 'SET', 'CLEAR', 'Q' or 'QBAR'")
    else if error_code =? EXPECT_KEYWORD self then
      inr ("Found " ++ name ++ ", expected a keyword ('DEVICE', 'CLOCK', 'SWITCH', 'MONITOR' or 'CONNECTION')")
    else if error_code =? EXPECT_OPEN_CURLY_BRACKET self then
      inr ("Found " ++ name ++ ", expected '{'")
    else if error_code =? EXPECT_COMMA self then
      inr ("Found " ++ name ++ ", expected ','")
    else if error_code =? EXPECT_SEMICOLON self then
      inr ("Found " ++ name ++ ", expected ';'")
    else if error_code =? EXPECT_COLON self then
      inr ("Found " ++ name ++ ", expected ':'")
    else if error_code =? EXPECT_FULL_STOP_OR_SEMICOLON self then
      inr ("Found " ++ name ++ ", expected '.' (if pin has to be defined) or ';' (if pin does not have to be defined)")
    else if error_code =? EXPECT_FULL_STOP self then
      inr ("Found " ++ name ++ ", expected '.'")
    else if error_code =? EXPECT_ARROW self then
      inr ("Found " ++ name ++ ", expected '>'")
    else if error_code =? EXPECT_FULL_STOP_OR_ARROW self then
      inr ("Found " ++ name ++ ", expected '.' (if pin has to be defined) or ';' (if pin does not have to be defined)")
    (* semantic error *)
    else if error_code =? PORT_ABSENT (network self) then
      inr ("Pin " ++ name ++ " does not exist")
    else if error_code =? INPUT_CONNECTED (network self) then
      inr ("Connection repeatedly assigned to input pin " ++ name)
    else if false then
      inr ("Missing input to pin " ++ name)
    else if error_code =? DEVICE_ABSENT (network self) then
      inr ("Identifier " ++ name ++ " is not defined")
    else if (error_code =? DEVICE_PRESENT (devices self))
            || (error_code =? MONITOR_PRESENT (monitors self)) then
      inr ("Identifier " ++ name ++ " should not be redefined")
    else if error_code =? MISSING_CLOCK_OR_SWITCH self then
      inr "At least one list between 'CLOCK' and 'SWITCH' is needed. neither is found"
    else if error_code =? DUPLICATE_KEYWORD self then
      inr (name ++ " block should not be redefined")
    else if error_code =? WRONG_BLOCK_ORDER self then
      inr (name ++ " block order is wrong")
    else if error_code =? MONITOR_NOT_DEFINED self then
      inr "At least one monitor should be defined"
    else inl (Py.ValueError ("Invalid error code '" ++ Py.str_of_int error_code ++ "'"))
  end.

(** ** State threaded by the methods

    A call can change the handler object and write to the standard
    output; what was written before an exception is raised stays
    written, so the state is returned next to the outcome. *)

Record World : Type := {
  self : ParserErrorHandler;
  stdout : list string
}.

Definition M (A : Type) : Type := World -> Py.result A * World.

Definition ret {A : Type} (x : A) : M A := fun w => (inr x, w).

Definition bind {A B : Type} (c : M A) (k : A -> M B) : M B :=
  fun w => match c w with
           | (inl e, w') => (inl e, w')
           | (inr x, w') => k x w'
           end.

Definition lift {A : Type} (r : Py.result A) : M A := fun w => (r, w).

Notation "x <- c ;; k" := (bind c (fun x => k))
  (at level 61, c at next level, right associativity).
Notation "c ;; k" := (bind c (fun _ => k))
  (at level 61, right associativity).

(** [print(s)] *)
Definition print (s : string) : M unit :=
  fun w => (inr tt, {| self := self w; stdout := (stdout w ++ [s])%list |}).

Definition get_self : M ParserErrorHandler := fun w => (inr (self w), w).

Definition set_error_output_list (l : list TerminalOutput)
    (h : ParserErrorHandler) : ParserErrorHandler :=
  {| names := names h; devices := devices h; network := network h;
     monitors := monitors h; scanner := scanner h;
     error_output_list := l;
     EXPECT_IDENTIFIER := EXPECT_IDENTIFIER h;
     EXPECT_INPUT_DEVICE := EXPECT_INPUT_DEVICE h;
     EXPECT_VARIABLE_INPUT_NUMBER := EXPECT_VARIABLE_INPUT_NUMBER h;
     EXPECT_CLOCK_CYCLE := EXPECT_CLOCK_CYCLE h;
     EXPECT_INITIAL_STATE := EXPECT_INITIAL_STATE h;
     EXPECT_PIN_IN := EXPECT_PIN_IN h;
     EXPECT_PIN_OUT := EXPECT_PIN_OUT h;
     EXPECT_PIN_IN_OR_OUT := EXPECT_PIN_IN_OR_OUT h;
     EXPECT_KEYWORD := EXPECT_KEYWORD h;
     EXPECT_OPEN_CURLY_BRACKET := EXPECT_OPEN_CURLY_BRACKET h;
     EXPECT_COMMA := EXPECT_COMMA h;
     EXPECT_SEMICOLON := EXPECT_SEMICOLON h;
     EXPECT_COLON := EXPECT_COLON h;
     EXPECT_FULL_STOP_OR_SEMICOLON := EXPECT_FULL_STOP_OR_SEMICOLON h;
     EXPECT_FULL_STOP := EXPECT_FULL_STOP h;
     EXPECT_ARROW := EXPECT_ARROW h;
     EXPECT_FULL_STOP_OR_ARROW := EXPECT_FULL_STOP_OR_ARROW h;
     MISSING_CLOCK_OR_SWITCH := MISSING_CLOCK_OR_SWITCH h;
     DUPLICATE_KEYWORD := DUPLICATE_KEYWORD h;
     WRONG_BLOCK_ORDER := WRONG_BLOCK_ORDER h;
     MONITOR_NOT_DEFINED := MONITOR_NOT_DEFINED h |}.

(** [self.error_output_list.append(o)] *)
Definition append_output (o : TerminalOutput) : M unit :=
  fun w => (inr tt,
            {| self := set_error_output_list
                         (error_output_list (self w) ++ [o])%list (self w);
               stdout := stdout w |}).

(** ** The methods of the handler *)

Definition get_line_terminal_output (self : ParserErrorHandler) (line : Z)
    (character_in_line : Z) (message : string)
  : Py.result LineTerminalOutput.t :=
  let line_location := "Line " ++ Py.str_of_int (line + 1) ++ ":" in
  match Py.getitem (file_lines (scanner self)) line with
  | inl e => inl e
  | inr line_with_issue =>
      inr {| LineTerminalOutput.line_location := line_location;
             LineTerminalOutput.line_with_issue := line_with_issue;
             LineTerminalOutput.arrow := Py.mul_str " " character_in_line ++ "^";
             LineTerminalOutput.message := message |}
  end.

Definition file_error (error_code : Z) : M unit :=
  self <- get_self ;;
  message <- lift (get_error_message self error_code (Py.Str "")) ;;
  append_output (OfFile {| FileTerminalOutput.message := message |}).

Section Handler.

(** [Names.get_name_string] of the absent [names] module: any function
    of the name table and of the identifier that returns a value or
    raises. *)
Variable get_name_string : Names -> Py.value -> Py.result Py.value.

(** The display label that [handle_error] computes for a symbol. *)
Definition resolve_name (self : ParserErrorHandler) (symbol : Symbol)
  : Py.result Py.value :=
  if Py.truthy (id symbol) then
    if symbol_type_eqb (type symbol) NUMBER then inr (id symbol)
    else get_name_string (names self) (id symbol)
  else if symbol_type_eqb (type symbol) COMMA then inr (Py.Str ",")
  else if symbol_type_eqb (type symbol) SEMICOLON then inr (Py.Str ";")
  else if symbol_type_eqb (type symbol) COLON then inr (Py.Str ":")
  else if symbol_type_eqb (type symbol) FULL_STOP then inr (Py.Str ".")
  else if symbol_type_eqb (type symbol) ARROW then inr (Py.Str ">")
  else if symbol_type_eqb (type symbol) OPEN_CURLY_BRACKET then inr (Py.Str "{")
  else if symbol_type_eqb (type symbol) CLOSE_CURLY_BRACKET then inr (Py.Str "}")
  else if symbol_type_eqb (type symbol) EOF then inr (Py.Str "")
  else inl (Py.ValueError "Invalid symbol type").

Definition handle_error (error_code : Z) (symbol : Symbol) : M unit :=
  print "handling error" ;;
  self <- get_self ;;
  name <- lift (resolve_name self symbol) ;;
  error_message <- lift (get_error_message self error_code name) ;;
  error_output <- lift (get_line_terminal_output self (line symbol)
                          (character_in_line symbol) error_message) ;;
  append_output (OfLine error_output).

End Handler.

(** ** A concrete session, used to run the methods *)

(** An instance of [get_name_string] for the session: lookup by
    position in the table, [None] outside it. *)
Definition lookup_name_string (names : Names) (name_id : Py.value)
  : Py.result Py.value :=
  match name_id with
  | Py.Int n =>
      if n <? 0 then inl (Py.ValueError "name_id must be non-negative")
      else match nth_error (name_list names) (Z.to_nat n) with
           | Some s => inr (Py.Str s)
           | None => inr Py.NoneV
           end
  | _ => inl (Py.TypeError "name_id must be an integer")
  end.

Definition demo_names : Names :=
  {| error_code_count := 15;
     name_list := ["DEVICE"; "CLOCK"; "SWITCH"; "MONITOR"; "CONNECTION"; "A"; "B"] |}.

Definition demo_devices : Devices := {| DEVICE_PRESENT := 5 |}.
Definition demo_network : Network :=
  {| INPUT_CONNECTED := 9; PORT_ABSENT := 10; DEVICE_ABSENT := 11 |}.
Definition demo_monitors : Monitors := {| MONITOR_PRESENT := 14 |}.
Definition demo_scanner : Scanner :=
  {| file_lines := ["DEVICE {"; "  A: AND 2;"; "}"; "CONNECTION {"; "A -> B;"; "}"] |}.

Definition demo_handler : ParserErrorHandler :=
  {| names := {| error_code_count := 36; name_list := name_list demo_names |};
     devices := demo_devices; network := demo_network;
     monitors := demo_monitors; scanner := demo_scanner;
     error_output_list := [];
     EXPECT_IDENTIFIER := 15; EXPECT_INPUT_DEVICE := 16;
     EXPECT_VARIABLE_INPUT_NUMBER := 17; EXPECT_CLOCK_CYCLE := 18;
     EXPECT_INITIAL_STATE := 19; EXPECT_PIN_IN := 20;
     EXPECT_PIN_OUT := 21; EXPECT_PIN_IN_OR_OUT := 22;
     EXPECT_KEYWORD := 23; EXPECT_OPEN_CURLY_BRACKET := 24;
     EXPECT_COMMA := 25; EXPECT_SEMICOLON := 26; EXPECT_COLON := 27;
     EXPECT_FULL_STOP_OR_SEMICOLON := 28; EXPECT_FULL_STOP := 29;
     EXPECT_ARROW := 30; EXPECT_FULL_STOP_OR_ARROW := 31;
     MISSING_CLOCK_OR_SWITCH := 32; DUPLICATE_KEYWORD := 33;
     WRONG_BLOCK_ORDER := 34; MONITOR_NOT_DEFINED := 35 |}.

Definition demo_world : World := {| self := demo_handler; stdout := [] |}.

(** The symbol [>] met at line 4, column 7. *)
Definition demo_symbol : Symbol :=
  {| type := ARROW; id := Py.NoneV; line := 4; character_in_line := 7 |}.

(** A symbol of an unlisted classification that carries an identifier. *)
Definition stray_symbol : Symbol :=
  {| type := OTHER 99; id := Py.Int 5; line := 4; character_in_line := 7 |}.

(** The keyword stored first in the name table. *)
Definition first_keyword_symbol : Symbol :=
  {| type := KEYWORD; id := Py.Int 0; line := 0; character_in_line := 0 |}.

(** ** Vocabulary of the properties *)

(** The identifiers the catalog compares against, in the order of the
    comparisons. *)
Definition declared_codes (self : ParserErrorHandler) : list Z :=
  [ EXPECT_IDENTIFIER self; EXPECT_INPUT_DEVICE self;
    EXPECT_VARIABLE_INPUT_NUMBER self; EXPECT_CLOCK_CYCLE self;
    EXPECT_INITIAL_STATE self; EXPECT_PIN_IN self; EXPECT_PIN_OUT self;
    EXPECT_PIN_IN_OR_OUT self; EXPECT_KEYWORD self;
    EXPECT_OPEN_CURLY_BRACKET self; EXPECT_COMMA self; EXPECT_SEMICOLON self;
    EXPECT_COLON self; EXPECT_FULL_STOP_OR_SEMICOLON self;
    EXPECT_FULL_STOP self; EXPECT_ARROW self; EXPECT_FULL_STOP_OR_ARROW self;
    PORT_ABSENT (network self); INPUT_CONNECTED (network self);
    DEVICE_ABSENT (network self); DEVICE_PRESENT (devices self);
    MONITOR_PRESENT (monitors self);
    MISSING_CLOCK_OR_SWITCH self; DUPLICATE_KEYWORD self;
    WRONG_BLOCK_ORDER self; MONITOR_NOT_DEFINED self ].

(** No two conditions share a code (section 3, ErrorCode). *)
Definition codes_distinct (self : ParserErrorHandler) : Prop :=
  NoDup (declared_codes self).

Fixpoint distinctb (l : list Z) : bool :=
  match l with
  | [] => true
  | x :: t => negb (existsb (Z.eqb x) t) && distinctb t
  end.

(** The label as the templates show it. *)
Definition quoted (label : string) : string :=
  (Py.dquote ++ label) ++ Py.dquote.

(** The catalog as a table: code and template instantiated at the quoted
    label [q], in the order of the comparisons. *)
Definition catalog (self : ParserErrorHandler) (q : string)
  : list (Z * string) :=
  [ (EXPECT_IDENTIFIER self, "Found " ++ q ++ ", expected a non-keyword identifier");
    (EXPECT_INPUT_DEVICE self, "Found " ++ q ++ ", expected 'AND', 'NAND', 'OR', 'NOR', 'XOR' or 'DTYPE'");
    (EXPECT_VARIABLE_INPUT_NUMBER self, "Found " ++ q ++ ", expected integer between 1 and 16");
    (EXPECT_CLOCK_CYCLE self, "Found " ++ q ++ ", expected positive integer with no leading zero");
    (EXPECT_INITIAL_STATE self, "Found " ++ q ++ ", expected 0 or 1");
    (EXPECT_PIN_IN self, "Found " ++ q ++ ", expected 'I1-16', 'DATA', 'CLK', 'SET' or 'CLEAR'");
    (EXPECT_PIN_OUT self, "Found " ++ q ++ ", expected 'Q' or 'QBAR'");
    (EXPECT_PIN_IN_OR_OUT self, "Found " ++ q ++ ", expected 'I1-16', 'DATA', 'CLK', 'SET', 'CLEAR', 'Q' or 'QBAR'");
    (EXPECT_KEYWORD self, "Found " ++ q ++ ", expected a keyword ('DEVICE', 'CLOCK', 'SWITCH', 'MONITOR' or 'CONNECTION')");
    (EXPECT_OPEN_CURLY_BRACKET self, "Found " ++ q ++ ", expected '{'");
    (EXPECT_COMMA self, "Found " ++ q ++ ", expected ','");
    (EXPECT_SEMICOLON self, "Found " ++ q ++ ", expected ';'");
    (EXPECT_COLON self, "Found " ++ q ++ ", expected ':'");
    (EXPECT_FULL_STOP_OR_SEMICOLON self, "Found " ++ q ++ ", expected '.' (if pin has to be defined) or ';' (if pin does not have to be defined)");
    (EXPECT_FULL_STOP self, "Found " ++ q ++ ", expected '.'");
    (EXPECT_ARROW self, "Found " ++ q ++ ", expected '>'");
    (EXPECT_FULL_STOP_OR_ARROW self, "Found " ++ q ++ ", expected '.' (if pin has to be defined) or ';' (if pin does not have to be defined)");
    (PORT_ABSENT (network self), "Pin " ++ q ++ " does not exist");
    (INPUT_CONNECTED (network self), "Connection repeatedly assigned to input pin " ++ q);
    (DEVICE_ABSENT (network self), "Identifier " ++ q ++ " is not defined");
    (DEVICE_PRESENT (devices self), "Identifier " ++ q ++ " should not be redefined");
    (MONITOR_PRESENT (monitors self), "Identifier " ++ q ++ " should not be redefined");
    (MISSING_CLOCK_OR_SWITCH self, "At least one list between 'CLOCK' and 'SWITCH' is needed. neither is found");
    (DUPLICATE_KEYWORD self, q ++ " block should not be redefined");
    (WRONG_BLOCK_ORDER self, q ++ " block order is wrong");
    (MONITOR_NOT_DEFINED self, "At least one monitor should be defined") ].

(** First entry of a table under a key. *)
Fixpoint assoc (k : Z) (l : list (Z * string)) : option string :=
  match l with
  | [] => None
  | (k', v) :: t => if k =? k' then Some v else assoc k t
  end.

Definition unknown_code (error_code : Z) : Py.exn :=
  Py.ValueError ("Invalid error code '" ++ Py.str_of_int error_code ++ "'").

Definition missing_label (error_code : Z) : Py.exn :=
  Py.TypeError ("error_code = " ++ Py.str_of_int error_code
                  ++ " has 1 required positional argument: 'name'").

Definition invalid_symbol : Py.exn := Py.ValueError "Invalid symbol type".

(** [needle] occurs in [hay]. *)
Definition contains (needle hay : string) : Prop :=
  exists pre post, hay = pre ++ needle ++ post.

(** [n] space characters. *)
Definition spaces (n : nat) : string := string_of_list_ascii (repeat " "%char n).

(** The lines of a text: the pieces between newline characters. *)
Fixpoint split_lines (s : string) : list string :=
  match s with
  | "" => [""]
  | String c t =>
      if Ascii.eqb c (ascii_of_nat 10) then "" :: split_lines t
      else match split_lines t with
           | l :: ls => String c l :: ls
           | [] => [String c ""]
           end
  end.

(** The classifications [handle_error] gives a fixed label to. *)
Definition fixed_label (t : symbol_type) : option string :=
  match t with
  | COMMA => Some ","
  | SEMICOLON => Some ";"
  | COLON => Some ":"
  | FULL_STOP => Some "."
  | ARROW => Some ">"
  | OPEN_CURLY_BRACKET => Some "{"
  | CLOSE_CURLY_BRACKET => Some "}"
  | EOF => Some ""
  | _ => None
  end.

(** The recognized set of section 3. *)
Definition recognized (t : symbol_type) : bool :=
  match t with
  | OTHER _ => false
  | _ => true
  end.

(** The state after a call that printed the trace line and appended
    the outputs [os]. *)
Definition printed (w : World) : World :=
  {| self := self w; stdout := (stdout w ++ ["handling error"])%list |}.

Definition appended (os : list TerminalOutput) (w : World) : World :=
  {| self := set_error_output_list (error_output_list (self w) ++ os)%list (self w);
     stdout := stdout w |}.

(** Everything of the handler but [error_output_list]. *)
Definition frame (h : ParserErrorHandler)
  : Names * Devices * Network * Monitors * Scanner * list Z :=
  (names h, devices h, network h, monitors h, scanner h,
   [ EXPECT_IDENTIFIER h; EXPECT_INPUT_DEVICE h;
     EXPECT_VARIABLE_INPUT_NUMBER h; EXPECT_CLOCK_CYCLE h;
     EXPECT_INITIAL_STATE h; EXPECT_PIN_IN h; EXPECT_PIN_OUT h;
     EXPECT_PIN_IN_OR_OUT h; EXPECT_KEYWORD h;
     EXPECT_OPEN_CURLY_BRACKET h; EXPECT_COMMA h; EXPECT_SEMICOLON h;
     EXPECT_COLON h; EXPECT_FULL_STOP_OR_SEMICOLON h;
     EXPECT_FULL_STOP h; EXPECT_ARROW h; EXPECT_FULL_STOP_OR_ARROW h;
     MISSING_CLOCK_OR_SWITCH h; DUPLICATE_KEYWORD h;
     WRONG_BLOCK_ORDER h; MONITOR_NOT_DEFINED h ]).

Section Diagnostics.

Variable get_name_string : Names -> Py.value -> Py.result Py.value.

(** The diagnostic that [handle_error] builds, as a function of the
    handler it reads. *)
Definition line_diagnostic (self : ParserErrorHandler) (error_code : Z)
    (symbol : Symbol) : Py.result LineTerminalOutput.t :=
  match resolve_name get_name_string self symbol with
  | inl e => inl e
  | inr name =>
      match get_error_message self error_code name with
      | inl e => inl e
      | inr error_message =>
          get_line_terminal_output self (line symbol)
            (character_in_line symbol) error_message
      end
  end.

End Diagnostics.

(** The diagnostic that [file_error] builds. *)
Definition file_diagnostic (self : ParserErrorHandler) (error_code : Z)
  : Py.result FileTerminalOutput.t :=
  match get_error_message self error_code (Py.Str "") with
  | inl e => inl e
  | inr message => inr {| FileTerminalOutput.message := message |}
  end.

(** ** Vocabulary of the further properties *)

(** A text without a newline character. *)
Definition no_newline (s : string) : bool :=
  forallb (fun c => negb (Ascii.eqb c (ascii_of_nat 10))) (list_ascii_of_string s).

(** Two codes that the catalog answers with one template. *)
Definition shares_template (h : ParserErrorHandler) (c1 c2 : Z) : Prop :=
  (c1 = EXPECT_FULL_STOP_OR_SEMICOLON h /\ c2 = EXPECT_FULL_STOP_OR_ARROW h)
  \/ (c1 = EXPECT_FULL_STOP_OR_ARROW h /\ c2 = EXPECT_FULL_STOP_OR_SEMICOLON h)
  \/ (c1 = DEVICE_PRESENT (devices h) /\ c2 = MONITOR_PRESENT (monitors h))
  \/ (c1 = MONITOR_PRESENT (monitors h) /\ c2 = DEVICE_PRESENT (devices h)).

(** A report made by the parser: one call of [handle_error] or of
    [file_error]. *)
Inductive report : Type :=
| Positional (error_code : Z) (symbol : Symbol)
| File (error_code : Z).

Section Reports.

Variable get_name_string : Names -> Py.value -> Py.result Py.value.

Definition perform (r : report) : M unit :=
  match r with
  | Positional error_code symbol => handle_error get_name_string error_code symbol
  | File error_code => file_error error_code
  end.

(** The reports of a pass, one after the other; an exception ends the
    pass. *)
Fixpoint perform_all (rs : list report) : M unit :=
  match rs with
  | [] => ret tt
  | r :: rs' => perform r ;; perform_all rs'
  end.

(** The diagnostic a report adds, read from the handler [h]. *)
Definition diagnostic_of (h : ParserErrorHandler) (r : report)
  : Py.result TerminalOutput :=
  match r with
  | Positional error_code symbol =>
      match line_diagnostic get_name_string h error_code symbol with
      | inl e => inl e
      | inr d => inr (OfLine d)
      end
  | File error_code =>
      match file_diagnostic h error_code with
      | inl e => inl e
      | inr d => inr (OfFile d)
      end
  end.

End Reports.

(** The end of file met on the line after the last cached one. *)
Definition eof_symbol : Symbol :=
  {| type := EOF; id := Py.NoneV; line := 6; character_in_line := 0 |}.

(** * The window: monitor lists and canvas text (logsim/gui.py) *)

(** ** Lists of strings *)

Module PyList.

(** [l.remove(x)]: [l] without its first element equal to [x]; raises
    when there is none. *)
Fixpoint remove (x : string) (l : list string) : Py.result (list string) :=
  match l with
  | [] => inl (Py.ValueError "list.remove(x): x not in list")
  | y :: t =>
      if String.eqb y x then inr t
      else match remove x t with
           | inl e => inl e
           | inr t' => inr (y :: t')
           end
  end.

(** [l.sort()] on strings: the stable sort by the order of the
    character codes, written as an insertion sort. *)
Fixpoint insert (x : string) (l : list string) : list string :=
  match l with
  | [] => [x]
  | y :: t => if String.leb x y then x :: y :: t else y :: insert x t
  end.

Fixpoint sort (l : list string) : list string :=
  match l with
  | [] => []
  | x :: t => insert x (sort t)
  end.

End PyList.

(** ** The monitor section of the window *)

Module Gui.

(** The two lists of the window and the labels held by
    [monitors_scrolled_sizer], in the order they were added. *)
Record t : Type := {
  monitors_active_list : list string;
  monitors_inactive_list : list string;
  monitors_scrolled_sizer : list string
}.

(** What a [wx.SingleChoiceDialog] gives back: [ShowModal()] is
    [wx.ID_OK] with the string of [GetStringSelection()], or it is
    not. *)
Inductive answer : Type :=
| Chosen (selection : string)
| Dismissed.

(** [update_monitors_display]: the sizer is cleared, then one label per
    active monitor is added. *)
Definition update_monitors_display (g : t) : t :=
  {| monitors_active_list := monitors_active_list g;
     monitors_inactive_list := monitors_inactive_list g;
     monitors_scrolled_sizer :=
       fold_left (fun sizer monitor => (sizer ++ [monitor])%list)
                 (monitors_active_list g) [] |}.

(** The monitor lists after [__init__], which ends the section with a
    call of [update_monitors_display]. *)
Definition init_monitors : t :=
  update_monitors_display
    {| monitors_active_list := ["G1"; "G2"];
       monitors_inactive_list := ["G3"; "G4"; "G5"];
       monitors_scrolled_sizer := [] |}.

Definition on_add_monitor_button (dialog : answer) (g : t)
  : Py.result unit * t :=
  match dialog with
  | Chosen selection =>
      let active := (monitors_active_list g ++ [selection])%list in
      match PyList.remove selection (monitors_inactive_list g) with
      | inl e =>
          (inl e,
           {| monitors_active_list := active;
              monitors_inactive_list := monitors_inactive_list g;
              monitors_scrolled_sizer := monitors_scrolled_sizer g |})
      | inr inactive =>
          (inr tt,
           update_monitors_display
             {| monitors_active_list := PyList.sort active;
                monitors_inactive_list := PyList.sort inactive;
                monitors_scrolled_sizer := monitors_scrolled_sizer g |})
      end
  | Dismissed => (inr tt, g)
  end.

Definition on_remove_monitor_button (dialog : answer) (g : t)
  : Py.result unit * t :=
  match dialog with
  | Chosen selection =>
      match PyList.remove selection (monitors_active_list g) with
      | inl e => (inl e, g)
      | inr active =>
          let inactive := (monitors_inactive_list g ++ [selection])%list in
          (inr tt,
           update_monitors_display
             {| monitors_active_list := PyList.sort active;
                monitors_inactive_list := PyList.sort inactive;
                monitors_scrolled_sizer := monitors_scrolled_sizer g |})
      end
  | Dismissed => (inr tt, g)
  end.

(** The states the window can be in: the one after [__init__], and the
    ones after a button handler ran with an answer of its dialog, which
    offers the inactive monitors to [Add] and the active ones to
    [Remove]. *)
Inductive reachable : t -> Prop :=
| reach_init : reachable init_monitors
| reach_add g dialog g' :
    reachable g ->
    (forall s, dialog = Chosen s -> In s (monitors_inactive_list g)) ->
    on_add_monitor_button dialog g = (inr tt, g') ->
    reachable g'
| reach_remove g dialog g' :
    reachable g ->
    (forall s, dialog = Chosen s -> In s (monitors_active_list g)) ->
    on_remove_monitor_button dialog g = (inr tt, g') ->
    reachable g'.

(** Sorted by the order of [sort]. *)
Definition sorted (l : list string) : Prop :=
  StronglySorted (fun a b => String.leb a b = true) l.

End Gui.

(** ** Text on the canvas *)

Module Canvas.

(** A text as the loop of [render_text] sees it: the sequence of its
    characters, each one given by its code point, the value of
    [ord(character)]; the newline is the character of code 10. *)
Definition text : Type := list Z.

(** The calls that [render_text] makes; the colour is always black and
    the font always [GLUT_BITMAP_HELVETICA_12]. *)
Inductive gl_call : Type :=
| glColor3f_black
| glRasterPos2f (x y : Z)
| glutBitmapCharacter (code : Z).

(** The loop of [render_text] over the characters of the text, with the
    current [y_pos]. *)
Fixpoint render_characters (characters : text) (x_pos y_pos : Z)
  : list gl_call :=
  match characters with
  | [] => []
  | character :: rest =>
      if character =? 10 then
        glRasterPos2f x_pos (y_pos - 20)
          :: render_characters rest x_pos (y_pos - 20)
      else
        glutBitmapCharacter character :: render_characters rest x_pos y_pos
  end.

Definition render_text (characters : text) (x_pos y_pos : Z) : list gl_call :=
  glColor3f_black :: glRasterPos2f x_pos y_pos
    :: render_characters characters x_pos y_pos.

(** The pieces of a text between its newlines. *)
Fixpoint lines_of (characters : text) : list text :=
  match characters with
  | [] => [[]]
  | character :: rest =>
      if character =? 10 then [] :: lines_of rest
      else match lines_of rest with
           | l :: ls => (character :: l) :: ls
           | [] => [[character]]
           end
  end.

(** The characters drawn and the raster positions set by a sequence of
    calls. *)
Fixpoint drawn (calls : list gl_call) : text :=
  match calls with
  | [] => []
  | glutBitmapCharacter code :: rest => code :: drawn rest
  | _ :: rest => drawn rest
  end.

Fixpoint raster_positions (calls : list gl_call) : list (Z * Z) :=
  match calls with
  | [] => []
  | glRasterPos2f x y :: rest => (x, y) :: raster_positions rest
  | _ :: rest => raster_positions rest
  end.

(** A line of text drawn from the raster position [(x, y)], and lines
    drawn one below the other, 20 units apart. *)
Definition draw_line (x y : Z) (line : text) : list gl_call :=
  glRasterPos2f x y :: map glutBitmapCharacter line.

Fixpoint draw_lines (x y : Z) (lines : list text) : list gl_call :=
  match lines with
  | [] => []
  | l :: ls => (draw_line x y l ++ draw_lines x (y - 20) ls)%list
  end.

End Canvas.

(** * Properties *)

(** ** Python fragment *)

Lemma truthy_quoted (label : string) : Py.truthy (Py.Str (quoted label)) = true.
Proof. reflexivity. Qed.

Lemma mul_str_spaces (n : Z) : Py.mul_str " " n = spaces (Z.to_nat n).
Proof.
  unfold Py.mul_str, spaces.
  induction (Z.to_nat n) as [|k IH]; simpl; [reflexivity | now rewrite IH].
Qed.

Lemma getitem_in_range {A : Type} (l : list A) (i : Z) (x : A) :
  0 <= i -> nth_error l (Z.to_nat i) = Some x -> Py.getitem l i = inr x.
Proof.
  intros Hi Hnth. unfold Py.getitem.
  assert (Hlt : (Z.to_nat i < List.length l)%nat)
    by (apply nth_error_Some; congruence).
  destruct (Z.ltb_spec i 0) as [|_]; [lia|].
  destruct (Z.ltb_spec i 0) as [|_]; [lia|].
  destruct (Z.leb_spec (Z.of_nat (List.length l)) i) as [|_]; [lia|].
  simpl. now rewrite Hnth.
Qed.

(** ** The session of the examples *)

Lemma demo_init :
  init demo_names demo_devices demo_network demo_monitors demo_scanner
  = inr demo_handler.
Proof. reflexivity. Qed.

Lemma distinctb_NoDup (l : list Z) : distinctb l = true -> NoDup l.
Proof.
  induction l as [|x t IH]; simpl; intros H; [constructor|].
  apply andb_true_iff in H as [Hx Ht]. constructor; [|auto].
  intros Hin. apply negb_true_iff in Hx.
  assert (existsb (Z.eqb x) t = true); [|congruence].
  apply existsb_exists. exists x. split; [assumption | apply Z.eqb_refl].
Qed.

Lemma demo_codes_distinct : codes_distinct demo_handler.
Proof. apply distinctb_NoDup. reflexivity. Qed.

(** ** The catalog as a table *)

Lemma assoc_first (k : Z) (v : string) (l : list (Z * string)) :
  NoDup (map fst l) -> In (k, v) l -> assoc k l = Some v.
Proof.
  induction l as [|[k' v'] t IH]; simpl; intros Hnd Hin; [contradiction|].
  inversion Hnd as [|? ? Hnotin Hnd']; subst.
  destruct Hin as [Heq | Hin].
  - inversion Heq; subst. now rewrite Z.eqb_refl.
  - destruct (Z.eqb_spec k k') as [->|_]; [|auto].
    exfalso. apply Hnotin. change k' with (fst (k', v)). now apply in_map.
Qed.

Lemma assoc_absent (k : Z) (l : list (Z * string)) :
  ~ In k (map fst l) -> assoc k l = None.
Proof.
  induction l as [|[k' v'] t IH]; simpl; intros Hnotin; [reflexivity|].
  destruct (Z.eqb_spec k k') as [->|_]; [exfalso; auto | auto].
Qed.

Lemma assoc_present (k : Z) (l : list (Z * string)) :
  In k (map fst l) -> exists v, assoc k l = Some v /\ In (k, v) l.
Proof.
  induction l as [|[k' v'] t IH]; simpl; intros Hin; [contradiction|].
  destruct (Z.eqb_spec k k') as [->|Hne].
  - exists v'. auto.
  - destruct Hin as [Heq | Hin]; [congruence|].
    destruct (IH Hin) as (v & Hv & Hmem). exists v. auto.
Qed.

Lemma catalog_keys (self : ParserErrorHandler) (q : string) :
  map fst (catalog self q) = declared_codes self.
Proof. reflexivity. Qed.

(** On a string label the chain of comparisons is a lookup in the
    table; the test of the label never fires. *)
Lemma get_error_message_catalog (self : ParserErrorHandler) (error_code : Z)
    (label : string) :
  get_error_message self error_code (Py.Str label)
  = match assoc error_code (catalog self (quoted label)) with
    | Some m => inr m
    | None => inl (unknown_code error_code)
    end.
Proof.
  unfold get_error_message, Py.add_str. fold (quoted label).
  rewrite truthy_quoted, andb_false_r.
  unfold catalog, assoc, unknown_code.
  repeat (destruct (error_code =? _); [reflexivity|]); reflexivity.
Qed.

Lemma get_error_message_not_str (self : ParserErrorHandler) (error_code : Z)
    (name : Py.value) :
  (forall s, name <> Py.Str s) ->
  exists msg, get_error_message self error_code name = inl (Py.TypeError msg).
Proof.
  intros Hns. destruct name as [|n|s]; [| |now destruct (Hns s)];
    unfold get_error_message; simpl; eexists; reflexivity.
Qed.

Lemma catalog_nonempty (self : ParserErrorHandler) (label : string) :
  Forall (fun p => snd p <> "") (catalog self (quoted label)).
Proof.
  unfold catalog, quoted, Py.dquote.
  repeat (constructor; [simpl; discriminate|]). constructor.
Qed.

(** ** The methods as state transformers *)

Section Runs.

Variable get_name_string : Names -> Py.value -> Py.result Py.value.

Lemma handle_error_run (error_code : Z) (symbol : Symbol) (w : World) :
  handle_error get_name_string error_code symbol w
  = match line_diagnostic get_name_string (self w) error_code symbol with
    | inr d => (inr tt, appended [OfLine d] (printed w))
    | inl e => (inl e, printed w)
    end.
Proof.
  unfold handle_error, line_diagnostic, bind, print, get_self, lift,
    append_output, appended, printed.
  cbn [self stdout].
  destruct (resolve_name get_name_string (self w) symbol) as [e|name];
    [reflexivity|].
  destruct (get_error_message (self w) error_code name) as [e|m];
    [reflexivity|].
  destruct (get_line_terminal_output (self w) (line symbol)
              (character_in_line symbol) m); reflexivity.
Qed.

Lemma line_diagnostic_frame (l : list TerminalOutput)
    (h : ParserErrorHandler) (error_code : Z) (symbol : Symbol) :
  line_diagnostic get_name_string (set_error_output_list l h) error_code symbol
  = line_diagnostic get_name_string h error_code symbol.
Proof. reflexivity. Qed.

(** What [resolve_name] does on each side of the test of [id]. *)
Lemma resolve_name_truthy (h : ParserErrorHandler) (symbol : Symbol) :
  Py.truthy (id symbol) = true ->
  resolve_name get_name_string h symbol
  = match type symbol with
    | NUMBER => inr (id symbol)
    | _ => get_name_string (names h) (id symbol)
    end.
Proof.
  unfold resolve_name. intros ->. now destruct (type symbol).
Qed.

Lemma resolve_name_falsy (h : ParserErrorHandler) (symbol : Symbol) :
  Py.truthy (id symbol) = false ->
  resolve_name get_name_string h symbol
  = match fixed_label (type symbol) with
    | Some s => inr (Py.Str s)
    | None => inl invalid_symbol
    end.
Proof.
  unfold resolve_name. intros ->. now destruct (type symbol).
Qed.

End Runs.

Lemma file_error_run (error_code : Z) (w : World) :
  file_error error_code w
  = match file_diagnostic (self w) error_code with
    | inr d => (inr tt, appended [OfFile d] w)
    | inl e => (inl e, w)
    end.
Proof.
  unfold file_error, file_diagnostic, bind, get_self, lift, append_output,
    appended.
  destruct (get_error_message (self w) error_code (Py.Str "")); reflexivity.
Qed.

Lemma file_diagnostic_frame (l : list TerminalOutput) (h : ParserErrorHandler)
    (error_code : Z) :
  file_diagnostic (set_error_output_list l h) error_code
  = file_diagnostic h error_code.
Proof. reflexivity. Qed.


Lemma not_in_existsb (k : Z) (l : list Z) :
  existsb (Z.eqb k) l = false -> ~ In k l.
Proof.
  intros Hb Hin.
  assert (existsb (Z.eqb k) l = true); [|congruence].
  apply existsb_exists. exists k. split; [assumption | apply Z.eqb_refl].
Qed.

Ltac in_table := unfold catalog; cbn [In]; repeat (first [left; reflexivity | right]).

(** ** The label test of [get_error_message] *)

(** C1, behaviour of the code: the label is wrapped in quotes before it
    is tested, so the test never sees an empty string.  No string label,
    the empty one included, makes [get_error_message] raise a
    [TypeError]; with the empty label the code [EXPECT_IDENTIFIER] gets
    its message, built around an empty pair of quotes. *)
Theorem get_error_message_empty_label :
  (forall h error_code label msg,
      get_error_message h error_code (Py.Str label) <> inl (Py.TypeError msg))
  /\ (forall h,
        get_error_message h (EXPECT_IDENTIFIER h) (Py.Str "")
        = inr ("Found " ++ quoted "" ++ ", expected a non-keyword identifier"))
  /\ get_error_message demo_handler 15 (Py.Str "") <> inl (missing_label 15).
Proof.
  split; [|split].
  - intros h error_code label msg. rewrite get_error_message_catalog.
    destruct (assoc error_code (catalog h (quoted label))); discriminate.
  - intros h. rewrite get_error_message_catalog.
    unfold catalog, assoc. now rewrite Z.eqb_refl.
  - discriminate.
Qed.

(** ** The label of a symbol *)

(** C2, behaviour of the code: [handle_error] tests the truth value of
    [symbol.id], not whether it is [None].  A keyword or a name whose
    identifier is 0, the first entry of the name table, takes the branch
    of the symbols without a value, matches no punctuation mark and
    raises "Invalid symbol type"; nothing is appended. *)
Theorem handle_error_zero_id_raises :
  forall get_name_string error_code l c w,
    handle_error get_name_string error_code
      {| type := KEYWORD; id := Py.Int 0; line := l; character_in_line := c |} w
    = (inl invalid_symbol, printed w)
    /\ handle_error get_name_string error_code
         {| type := NAME; id := Py.Int 0; line := l; character_in_line := c |} w
       = (inl invalid_symbol, printed w)
    /\ error_output_list (self (printed w)) = error_output_list (self w)
    /\ handle_error lookup_name_string 15 first_keyword_symbol demo_world
       = (inl invalid_symbol, printed demo_world).
Proof.
  intros gns error_code l c w.
  repeat split; rewrite handle_error_run; unfold line_diagnostic;
    now rewrite resolve_name_falsy.
Qed.

(** C3, counterexample: a symbol of an unlisted classification whose
    [id] is 5 does not raise; its label is looked up in the name table
    and a diagnostic is appended. *)
Lemma handle_error_unrecognized_with_id :
  recognized (type stray_symbol) = false
  /\ fst (handle_error lookup_name_string 15 stray_symbol demo_world) = inr tt
  /\ error_output_list
       (self (snd (handle_error lookup_name_string 15 stray_symbol demo_world)))
     <> error_output_list (self demo_world).
Proof. repeat split. discriminate. Qed.

(** C3, amended: for every symbol whose [id] is [None] (or otherwise
    false) and whose classification is not in the recognized set,
    [handle_error] raises "Invalid symbol type" and leaves
    [error_output_list], and the rest of the handler, as they were. *)
Theorem handle_error_invalid_symbol :
  forall get_name_string error_code symbol w,
    recognized (type symbol) = false ->
    Py.truthy (id symbol) = false ->
    exists w',
      handle_error get_name_string error_code symbol w = (inl invalid_symbol, w')
      /\ error_output_list (self w') = error_output_list (self w)
      /\ self w' = self w.
Proof.
  intros gns error_code symbol w Hrec Hid. exists (printed w).
  rewrite handle_error_run. unfold line_diagnostic.
  rewrite resolve_name_falsy by assumption.
  destruct (type symbol); try discriminate. repeat split.
Qed.

Lemma handle_error_invalid_symbol_witness :
  exists w',
    handle_error lookup_name_string 15
      {| type := OTHER 99; id := Py.NoneV; line := 4; character_in_line := 7 |}
      demo_world = (inl invalid_symbol, w')
    /\ error_output_list (self w') = error_output_list (self demo_world)
    /\ self w' = self demo_world.
Proof.
  apply (handle_error_invalid_symbol lookup_name_string 15
           {| type := OTHER 99; id := Py.NoneV; line := 4; character_in_line := 7 |}
           demo_world); reflexivity.
Defined.

(** ** Totality of the catalog *)

(** C4: on every declared code (the 17 syntax codes, the codes of the
    network, devices and monitors, and the 4 semantic codes of the
    handler) [get_error_message] returns a non-empty string, a function
    of the handler, the code and the label only; on every other code it
    raises "Invalid error code", and then [file_error] and
    [handle_error] raise with [error_output_list] untouched. *)
Theorem get_error_message_total :
  forall w error_code label,
    (In error_code (declared_codes (self w)) ->
       exists m, get_error_message (self w) error_code (Py.Str label) = inr m
                 /\ m <> "")
    /\ (~ In error_code (declared_codes (self w)) ->
        get_error_message (self w) error_code (Py.Str label)
        = inl (unknown_code error_code)
        /\ file_error error_code w = (inl (unknown_code error_code), w)
        /\ forall get_name_string symbol,
            exists e w',
              handle_error get_name_string error_code symbol w = (inl e, w')
              /\ self w' = self w).
Proof.
  intros w error_code label. split.
  - intros Hin. rewrite get_error_message_catalog.
    rewrite <- (catalog_keys (self w) (quoted label)) in Hin.
    destruct (assoc_present _ _ Hin) as (m & -> & Hmem).
    exists m. split; [reflexivity|].
    pose proof (catalog_nonempty (self w) label) as Hall.
    rewrite Forall_forall in Hall. exact (Hall _ Hmem).
  - intros Hout.
    assert (Hmsg : forall s, get_error_message (self w) error_code (Py.Str s)
                             = inl (unknown_code error_code)).
    { intros s. rewrite get_error_message_catalog, assoc_absent; [reflexivity|].
      now rewrite catalog_keys. }
    split; [apply Hmsg|]. split.
    + rewrite file_error_run. unfold file_diagnostic. now rewrite Hmsg.
    + intros gns symbol. rewrite handle_error_run. unfold line_diagnostic.
      destruct (resolve_name gns (self w) symbol) as [e|[|n|s]].
      * now exists e, (printed w).
      * destruct (get_error_message_not_str (self w) error_code Py.NoneV)
          as [msg ->]; [discriminate|]. now eexists _, (printed w).
      * destruct (get_error_message_not_str (self w) error_code (Py.Int n))
          as [msg ->]; [discriminate|]. now eexists _, (printed w).
      * rewrite Hmsg. now eexists _, (printed w).
Qed.

Lemma get_error_message_total_witness :
  (exists m, get_error_message (self demo_world) 23 (Py.Str "A") = inr m
             /\ m <> "")
  /\ get_error_message (self demo_world) 99 (Py.Str "A") = inl (unknown_code 99)
  /\ file_error 99 demo_world = (inl (unknown_code 99), demo_world).
Proof.
  split.
  - apply (proj1 (get_error_message_total demo_world 23 "A")).
    vm_compute. tauto.
  - pose proof (proj2 (get_error_message_total demo_world 99 "A")) as H.
    assert (Hout : ~ In 99 (declared_codes (self demo_world)))
      by (apply not_in_existsb; reflexivity).
    destruct (H Hout) as (H1 & H2 & _). split; assumption.
Defined.

(** ** Effects of a call *)

Lemma appended_appended (os1 os2 : list TerminalOutput) (w : World) :
  appended os2 (appended os1 w) = appended (os1 ++ os2)%list w.
Proof.
  unfold appended. cbn [self stdout]. f_equal.
  change (error_output_list (set_error_output_list ?l ?h)) with l.
  now rewrite <- app_assoc.
Qed.

(** C6, counterexample: a call of [handle_error] that returns has
    written a line to the standard output. *)
Lemma handle_error_writes_to_stdout :
  fst (handle_error lookup_name_string 26 demo_symbol demo_world) = inr tt
  /\ stdout (snd (handle_error lookup_name_string 26 demo_symbol demo_world))
     = ["handling error"]
  /\ stdout (snd (handle_error lookup_name_string 26 demo_symbol demo_world))
     <> stdout demo_world.
Proof. repeat split. discriminate. Qed.

(** C6, amended: a call of [handle_error] that does not raise returns
    nothing, appends one positional diagnostic to [error_output_list]
    and prints the line "handling error" on the standard output; the
    names, devices, network, monitors and scanner of the handler and its
    allocated codes are unchanged. *)
Theorem handle_error_frame :
  forall get_name_string error_code symbol w w',
    handle_error get_name_string error_code symbol w = (inr tt, w') ->
    frame (self w') = frame (self w)
    /\ (exists d, error_output_list (self w')
                  = (error_output_list (self w) ++ [OfLine d])%list)
    /\ stdout w' = (stdout w ++ ["handling error"])%list.
Proof.
  intros gns error_code symbol w w'. rewrite handle_error_run.
  destruct (line_diagnostic gns (self w) error_code symbol) as [e|d];
    intros H; inversion H; subst; clear H.
  split; [reflexivity|]. split; [now exists d | reflexivity].
Qed.

Lemma handle_error_frame_witness :
  frame (self (snd (handle_error lookup_name_string 26 demo_symbol demo_world)))
  = frame (self demo_world)
  /\ (exists d,
        error_output_list
          (self (snd (handle_error lookup_name_string 26 demo_symbol demo_world)))
        = (error_output_list (self demo_world) ++ [OfLine d])%list)
  /\ stdout (snd (handle_error lookup_name_string 26 demo_symbol demo_world))
     = (stdout demo_world ++ ["handling error"])%list.
Proof.
  apply (handle_error_frame lookup_name_string 26 demo_symbol demo_world).
  reflexivity.
Defined.

(** ** The list of diagnostics *)

(** C7: a call of [handle_error] or of [file_error] that does not raise
    puts exactly one diagnostic, the one of that call, at the end of
    [error_output_list] and keeps the elements already there in place;
    a call that raises leaves the list as it was; two calls of
    [handle_error] followed by one of [file_error] add their three
    diagnostics in that order, whatever the codes, equal or not. *)
Theorem error_output_list_append_only :
  (forall get_name_string error_code symbol w w',
      handle_error get_name_string error_code symbol w = (inr tt, w') ->
      exists d,
        line_diagnostic get_name_string (self w) error_code symbol = inr d
        /\ error_output_list (self w')
           = (error_output_list (self w) ++ [OfLine d])%list)
  /\ (forall error_code w w',
        file_error error_code w = (inr tt, w') ->
        exists d,
          file_diagnostic (self w) error_code = inr d
          /\ error_output_list (self w')
             = (error_output_list (self w) ++ [OfFile d])%list)
  /\ (forall get_name_string error_code symbol e w w',
        handle_error get_name_string error_code symbol w = (inl e, w') ->
        error_output_list (self w') = error_output_list (self w))
  /\ (forall error_code e w w',
        file_error error_code w = (inl e, w') ->
        error_output_list (self w') = error_output_list (self w))
  /\ (forall get_name_string code1 symbol1 code2 symbol2 code3 w w',
        (handle_error get_name_string code1 symbol1 ;;
         handle_error get_name_string code2 symbol2 ;;
         file_error code3) w = (inr tt, w') ->
        exists d1 d2 d3,
          line_diagnostic get_name_string (self w) code1 symbol1 = inr d1
          /\ line_diagnostic get_name_string (self w) code2 symbol2 = inr d2
          /\ file_diagnostic (self w) code3 = inr d3
          /\ error_output_list (self w')
             = (error_output_list (self w) ++ [OfLine d1; OfLine d2; OfFile d3])%list
          /\ (error_output_list (self w) = [] ->
              error_output_list (self w') = [OfLine d1; OfLine d2; OfFile d3])).
Proof.
  split; [|split; [|split; [|split]]].
  - intros gns error_code symbol w w'. rewrite handle_error_run.
    destruct (line_diagnostic gns (self w) error_code symbol) as [e|d];
      intros H; inversion H; subst; clear H.
    now exists d.
  - intros error_code w w'. rewrite file_error_run.
    destruct (file_diagnostic (self w) error_code) as [e|d];
      intros H; inversion H; subst; clear H.
    now exists d.
  - intros gns error_code symbol e w w'. rewrite handle_error_run.
    destruct (line_diagnostic gns (self w) error_code symbol) as [e'|d];
      intros H; inversion H; subst; reflexivity.
  - intros error_code e w w'. rewrite file_error_run.
    destruct (file_diagnostic (self w) error_code) as [e'|d];
      intros H; inversion H; subst; reflexivity.
  - intros gns code1 symbol1 code2 symbol2 code3 w w'. unfold bind.
    rewrite handle_error_run.
    destruct (line_diagnostic gns (self w) code1 symbol1) as [e|d1];
      [discriminate|].
    rewrite handle_error_run.
    change (self (appended [OfLine d1] (printed w)))
      with (set_error_output_list
              (error_output_list (self w) ++ [OfLine d1])%list (self w)).
    rewrite line_diagnostic_frame.
    destruct (line_diagnostic gns (self w) code2 symbol2) as [e|d2];
      [discriminate|].
    rewrite file_error_run.
    change (printed (appended [OfLine d1] (printed w)))
      with (appended [OfLine d1] (printed (printed w))).
    rewrite !appended_appended.
    change (self (appended ?os (printed (printed w))))
      with (set_error_output_list
              (error_output_list (self w) ++ os)%list (self w)).
    rewrite file_diagnostic_frame.
    destruct (file_diagnostic (self w) code3) as [e|d3]; [discriminate|].
    rewrite appended_appended. intros H; inversion H; subst; clear H.
    exists d1, d2, d3. repeat split. cbn. now intros ->.
Qed.

Lemma error_output_list_append_only_witness :
  exists d1 d2 d3,
    line_diagnostic lookup_name_string (self demo_world) 26 demo_symbol = inr d1
    /\ line_diagnostic lookup_name_string (self demo_world) 26 stray_symbol = inr d2
    /\ file_diagnostic (self demo_world) 35 = inr d3
    /\ error_output_list
         (self (snd ((handle_error lookup_name_string 26 demo_symbol ;;
                      handle_error lookup_name_string 26 stray_symbol ;;
                      file_error 35) demo_world)))
       = (error_output_list (self demo_world)
            ++ [OfLine d1; OfLine d2; OfFile d3])%list
    /\ (error_output_list (self demo_world) = [] ->
        error_output_list
          (self (snd ((handle_error lookup_name_string 26 demo_symbol ;;
                       handle_error lookup_name_string 26 stray_symbol ;;
                       file_error 35) demo_world)))
        = [OfLine d1; OfLine d2; OfFile d3]).
Proof.
  apply (proj2 (proj2 (proj2 (proj2 error_output_list_append_only)))
           lookup_name_string
           26 demo_symbol 26 stray_symbol 35 demo_world).
  reflexivity.
Defined.

(** ** File diagnostics *)

(** C8: with pairwise distinct codes, [file_error] called with
    [MISSING_CLOCK_OR_SWITCH] returns and leaves [error_output_list]
    equal to the old list followed by one file diagnostic, with the
    standard output and the rest of the handler unchanged; the
    diagnostic renders as a newline, "File error: " with the message,
    and a newline; the message contains "At least one list between
    'CLOCK' and 'SWITCH' is needed" and is the same text for every
    label. *)
Theorem file_error_missing_clock_or_switch :
  forall w,
    codes_distinct (self w) ->
    exists d w',
      file_error (MISSING_CLOCK_OR_SWITCH (self w)) w = (inr tt, w')
      /\ error_output_list (self w')
         = (error_output_list (self w) ++ [OfFile d])%list
      /\ stdout w' = stdout w
      /\ frame (self w') = frame (self w)
      /\ str (OfFile d)
         = Py.nl ++ "File error: " ++ FileTerminalOutput.message d ++ Py.nl
      /\ split_lines (str (OfFile d))
         = [""; "File error: At least one list between 'CLOCK' and 'SWITCH' is needed. neither is found"; ""]
      /\ contains "At least one list between 'CLOCK' and 'SWITCH' is needed"
           (FileTerminalOutput.message d)
      /\ forall label,
           get_error_message (self w) (MISSING_CLOCK_OR_SWITCH (self w))
             (Py.Str label)
           = inr (FileTerminalOutput.message d).
Proof.
  intros w Hd.
  assert (Hmsg : forall label,
    get_error_message (self w) (MISSING_CLOCK_OR_SWITCH (self w)) (Py.Str label)
    = inr "At least one list between 'CLOCK' and 'SWITCH' is needed. neither is found").
  { intros label. rewrite get_error_message_catalog.
    erewrite assoc_first; [reflexivity | now rewrite catalog_keys | in_table]. }
  eexists. eexists. rewrite file_error_run. unfold file_diagnostic. rewrite Hmsg.
  split; [reflexivity|]. split; [reflexivity|]. split; [reflexivity|].
  split; [reflexivity|]. split; [reflexivity|]. split; [reflexivity|].
  split; [|exact Hmsg].
  exists "", ". neither is found". reflexivity.
Qed.

Lemma file_error_missing_clock_or_switch_witness :
  exists d w',
    file_error 32 demo_world = (inr tt, w')
    /\ error_output_list (self w')
       = (error_output_list (self demo_world) ++ [OfFile d])%list
    /\ stdout w' = stdout demo_world
    /\ frame (self w') = frame (self demo_world)
    /\ str (OfFile d)
       = Py.nl ++ "File error: " ++ FileTerminalOutput.message d ++ Py.nl
    /\ split_lines (str (OfFile d))
       = [""; "File error: At least one list between 'CLOCK' and 'SWITCH' is needed. neither is found"; ""]
    /\ contains "At least one list between 'CLOCK' and 'SWITCH' is needed"
         (FileTerminalOutput.message d)
    /\ forall label,
         get_error_message (self demo_world) 32 (Py.Str label)
         = inr (FileTerminalOutput.message d).
Proof.
  apply (file_error_missing_clock_or_switch demo_world).
  apply distinctb_NoDup. reflexivity.
Defined.

(** C9: with pairwise distinct codes, [file_error] called with
    [MONITOR_NOT_DEFINED], which passes no label, does not raise: it
    returns and leaves [error_output_list] equal to the old list
    followed by the file diagnostic whose message is "At least one
    monitor should be defined", with the standard output and the rest of
    the handler unchanged. *)
Theorem file_error_monitor_not_defined :
  forall w,
    codes_distinct (self w) ->
    exists w',
      file_error (MONITOR_NOT_DEFINED (self w)) w = (inr tt, w')
      /\ error_output_list (self w')
         = (error_output_list (self w)
              ++ [OfFile {| FileTerminalOutput.message :=
                              "At least one monitor should be defined" |}])%list
      /\ stdout w' = stdout w
      /\ frame (self w') = frame (self w).
Proof.
  intros w Hd. eexists. rewrite file_error_run. unfold file_diagnostic.
  rewrite get_error_message_catalog.
  erewrite assoc_first; [| now rewrite catalog_keys | in_table].
  repeat split.
Qed.

Lemma file_error_monitor_not_defined_witness :
  exists w',
    file_error 35 demo_world = (inr tt, w')
    /\ error_output_list (self w')
       = (error_output_list (self demo_world)
            ++ [OfFile {| FileTerminalOutput.message :=
                            "At least one monitor should be defined" |}])%list
    /\ stdout w' = stdout demo_world
    /\ frame (self w') = frame (self demo_world).
Proof.
  apply (file_error_monitor_not_defined demo_world).
  apply distinctb_NoDup. reflexivity.
Defined.

(** ** The two ambiguity codes *)

(** C10: with pairwise distinct codes, [get_error_message] gives the
    same result for [EXPECT_FULL_STOP_OR_SEMICOLON] and for
    [EXPECT_FULL_STOP_OR_ARROW] on every label; on a string label it is
    the message that ends with the choice between '.' and ';'. *)
Theorem ambiguity_codes_share_message :
  forall h,
    codes_distinct h ->
    (forall name,
        get_error_message h (EXPECT_FULL_STOP_OR_SEMICOLON h) name
        = get_error_message h (EXPECT_FULL_STOP_OR_ARROW h) name)
    /\ (forall label,
          get_error_message h (EXPECT_FULL_STOP_OR_ARROW h) (Py.Str label)
          = inr ("Found " ++ quoted label
                   ++ ", expected '.' (if pin has to be defined) or ';' (if pin does not have to be defined)")).
Proof.
  intros h Hd.
  assert (Hsemi : forall label,
    get_error_message h (EXPECT_FULL_STOP_OR_SEMICOLON h) (Py.Str label)
    = inr ("Found " ++ quoted label
             ++ ", expected '.' (if pin has to be defined) or ';' (if pin does not have to be defined)")).
  { intros label. rewrite get_error_message_catalog.
    erewrite assoc_first; [reflexivity | now rewrite catalog_keys | in_table]. }
  assert (Harrow : forall label,
    get_error_message h (EXPECT_FULL_STOP_OR_ARROW h) (Py.Str label)
    = inr ("Found " ++ quoted label
             ++ ", expected '.' (if pin has to be defined) or ';' (if pin does not have to be defined)")).
  { intros label. rewrite get_error_message_catalog.
    erewrite assoc_first; [reflexivity | now rewrite catalog_keys | in_table]. }
  split; [|exact Harrow].
  intros [|n|label]; [reflexivity | reflexivity |].
  now rewrite Hsemi, Harrow.
Qed.

Lemma ambiguity_codes_share_message_witness :
  (forall name,
      get_error_message demo_handler 28 name
      = get_error_message demo_handler 31 name)
  /\ (forall label,
        get_error_message demo_handler 31 (Py.Str label)
        = inr ("Found " ++ quoted label
                 ++ ", expected '.' (if pin has to be defined) or ';' (if pin does not have to be defined)")).
Proof.
  apply (ambiguity_codes_share_message demo_handler).
  apply distinctb_NoDup. reflexivity.
Defined.

(** ** Construction *)


(** * Further properties of the handler *)

(** ** The cached line and the caret *)

Lemma getitem_wrap {A : Type} (l : list A) (i : Z) (x : A) :
  i < 0 -> 0 <= i + Z.of_nat (List.length l) ->
  nth_error l (Z.to_nat (i + Z.of_nat (List.length l))) = Some x ->
  Py.getitem l i = inr x.
Proof.
  intros Hneg Hlo Hnth. unfold Py.getitem.
  destruct (Z.ltb_spec i 0) as [_|]; [|lia].
  destruct (Z.ltb_spec (i + Z.of_nat (List.length l)) 0) as [|_]; [lia|].
  destruct (Z.leb_spec (Z.of_nat (List.length l)) (i + Z.of_nat (List.length l)))
    as [|_]; [lia|].
  simpl. now rewrite Hnth.
Qed.

Lemma getitem_out_of_range {A : Type} (l : list A) (i : Z) :
  i < - Z.of_nat (List.length l) \/ Z.of_nat (List.length l) <= i ->
  Py.getitem l i = inl (Py.IndexError "list index out of range").
Proof.
  intros Hout. unfold Py.getitem.
  destruct (Z.ltb_spec i 0) as [Hneg|Hpos].
  - destruct (Z.ltb_spec (i + Z.of_nat (List.length l)) 0) as [|]; [reflexivity|lia].
  - destruct (Z.ltb_spec i 0) as [|_]; [lia|].
    destruct (Z.leb_spec (Z.of_nat (List.length l)) i) as [|]; [reflexivity|lia].
Qed.

(** X1: [get_line_terminal_output] succeeds exactly when the line is an
    index of the cache in the sense of Python: from 0 it counts from the
    start, below 0 it counts from the end (and the location text still
    shows the line plus one), and outside [-len, len) the call raises
    IndexError. *)
Theorem get_line_terminal_output_bounds :
  forall h l c m,
    (0 <= l < Z.of_nat (List.length (file_lines (scanner h))) ->
     exists src,
       nth_error (file_lines (scanner h)) (Z.to_nat l) = Some src
       /\ get_line_terminal_output h l c m
          = inr {| LineTerminalOutput.line_location :=
                     "Line " ++ Py.str_of_int (l + 1) ++ ":";
                   LineTerminalOutput.line_with_issue := src;
                   LineTerminalOutput.arrow := Py.mul_str " " c ++ "^";
                   LineTerminalOutput.message := m |})
    /\ (- Z.of_nat (List.length (file_lines (scanner h))) <= l < 0 ->
        exists src,
          nth_error (file_lines (scanner h))
            (Z.to_nat (l + Z.of_nat (List.length (file_lines (scanner h)))))
          = Some src
          /\ get_line_terminal_output h l c m
             = inr {| LineTerminalOutput.line_location :=
                        "Line " ++ Py.str_of_int (l + 1) ++ ":";
                      LineTerminalOutput.line_with_issue := src;
                      LineTerminalOutput.arrow := Py.mul_str " " c ++ "^";
                      LineTerminalOutput.message := m |})
    /\ (l < - Z.of_nat (List.length (file_lines (scanner h)))
        \/ Z.of_nat (List.length (file_lines (scanner h))) <= l ->
        get_line_terminal_output h l c m
        = inl (Py.IndexError "list index out of range")).
Proof.
  intros h l c m. unfold get_line_terminal_output.
  set (fl := file_lines (scanner h)). split; [|split].
  - intros Hl.
    destruct (nth_error fl (Z.to_nat l)) as [src|] eqn:Hnth.
    + exists src. split; [reflexivity|].
      now rewrite (getitem_in_range fl l src) by (assumption || lia).
    + apply nth_error_None in Hnth. lia.
  - intros Hl.
    destruct (nth_error fl (Z.to_nat (l + Z.of_nat (List.length fl))))
      as [src|] eqn:Hnth.
    + exists src. split; [reflexivity|].
      now rewrite (getitem_wrap fl l src) by (assumption || lia).
    + apply nth_error_None in Hnth. lia.
  - intros Hl. now rewrite getitem_out_of_range.
Qed.

Lemma get_line_terminal_output_bounds_witness :
  (exists src,
      nth_error (file_lines (scanner demo_handler)) (Z.to_nat 4) = Some src
      /\ get_line_terminal_output demo_handler 4 7 "m"
         = inr {| LineTerminalOutput.line_location :=
                    "Line " ++ Py.str_of_int (4 + 1) ++ ":";
                  LineTerminalOutput.line_with_issue := src;
                  LineTerminalOutput.arrow := Py.mul_str " " 7 ++ "^";
                  LineTerminalOutput.message := "m" |})
  /\ (exists src,
        nth_error (file_lines (scanner demo_handler))
          (Z.to_nat (-1 + Z.of_nat (List.length (file_lines (scanner demo_handler)))))
        = Some src
        /\ get_line_terminal_output demo_handler (-1) 7 "m"
           = inr {| LineTerminalOutput.line_location :=
                      "Line " ++ Py.str_of_int (-1 + 1) ++ ":";
                    LineTerminalOutput.line_with_issue := src;
                    LineTerminalOutput.arrow := Py.mul_str " " 7 ++ "^";
                    LineTerminalOutput.message := "m" |})
  /\ get_line_terminal_output demo_handler 6 7 "m"
     = inl (Py.IndexError "list index out of range").
Proof.
  split; [|split].
  - apply (proj1 (get_line_terminal_output_bounds demo_handler 4 7 "m")).
    vm_compute. split; [discriminate | reflexivity].
  - apply (proj1 (proj2 (get_line_terminal_output_bounds demo_handler (-1) 7 "m"))).
    vm_compute. split; [discriminate | reflexivity].
  - apply (proj2 (proj2 (get_line_terminal_output_bounds demo_handler 6 7 "m"))).
    right. vm_compute. discriminate.
Defined.

(** X2: when the label and the message are found but the line of the
    symbol is outside the cache, [handle_error] raises IndexError and
    appends nothing; so does an end of file placed on the line after
    the last one. *)
Theorem handle_error_line_out_of_range :
  forall get_name_string error_code symbol w name message,
    resolve_name get_name_string (self w) symbol = inr name ->
    get_error_message (self w) error_code name = inr message ->
    line symbol < - Z.of_nat (List.length (file_lines (scanner (self w))))
    \/ Z.of_nat (List.length (file_lines (scanner (self w)))) <= line symbol ->
    handle_error get_name_string error_code symbol w
    = (inl (Py.IndexError "list index out of range"), printed w)
    /\ error_output_list (self (printed w)) = error_output_list (self w).
Proof.
  intros gns error_code symbol w name message Hres Hmsg Hout.
  split; [|reflexivity].
  rewrite handle_error_run. unfold line_diagnostic. rewrite Hres, Hmsg.
  unfold get_line_terminal_output. now rewrite getitem_out_of_range.
Qed.

Lemma handle_error_line_out_of_range_witness :
  handle_error lookup_name_string 26 eof_symbol demo_world
  = (inl (Py.IndexError "list index out of range"), printed demo_world)
  /\ error_output_list (self (printed demo_world))
     = error_output_list (self demo_world).
Proof.
  apply (handle_error_line_out_of_range lookup_name_string 26 eof_symbol
           demo_world (Py.Str "") ("Found " ++ quoted "" ++ ", expected ';'")).
  - reflexivity.
  - reflexivity.
  - right. vm_compute. discriminate.
Defined.

Lemma spaces_length (n : nat) : String.length (spaces n) = n.
Proof. unfold spaces. induction n as [|k IH]; simpl; congruence. Qed.

Lemma spaces_get (n i : nat) :
  (i < n)%nat -> String.get i (spaces n ++ "^") = Some " "%char.
Proof.
  unfold spaces. revert i. induction n as [|k IH]; intros i Hi; [lia|].
  destruct i as [|j]; simpl; [reflexivity | apply IH; lia].
Qed.

Lemma spaces_get_caret (n : nat) :
  String.get n (spaces n ++ "^") = Some "^"%char.
Proof. unfold spaces. induction n as [|k IH]; simpl; auto. Qed.

Lemma append_length (s t : string) :
  String.length (s ++ t) = (String.length s + String.length t)%nat.
Proof. induction s as [|a s IH]; simpl; congruence. Qed.

(** X3: in a diagnostic built by [get_line_terminal_output] the arrow
    has the caret at position [character_in_line], counted from 0, with
    only spaces before it and nothing after it; a column that is zero or
    negative gives the caret alone. *)
Theorem arrow_points_at_column :
  forall h l c m d,
    get_line_terminal_output h l c m = inr d ->
    String.length (LineTerminalOutput.arrow d) = S (Z.to_nat c)
    /\ String.get (Z.to_nat c) (LineTerminalOutput.arrow d) = Some "^"%char
    /\ (forall i, (i < Z.to_nat c)%nat ->
                  String.get i (LineTerminalOutput.arrow d) = Some " "%char)
    /\ (c <= 0 -> LineTerminalOutput.arrow d = "^").
Proof.
  intros h l c m d. unfold get_line_terminal_output.
  destruct (Py.getitem (file_lines (scanner h)) l) as [e|src]; [discriminate|].
  intros H; inversion H; subst; clear H.
  cbn [LineTerminalOutput.arrow]. rewrite mul_str_spaces.
  split; [|split; [|split]].
  - rewrite append_length, spaces_length. simpl. lia.
  - apply spaces_get_caret.
  - intros i Hi. now apply spaces_get.
  - intros Hc. replace (Z.to_nat c) with 0%nat by lia. reflexivity.
Qed.

Lemma arrow_points_at_column_witness :
  exists d,
    get_line_terminal_output demo_handler 4 7 "m" = inr d
    /\ String.length (LineTerminalOutput.arrow d) = 8%nat
    /\ String.get 7 (LineTerminalOutput.arrow d) = Some "^"%char.
Proof.
  eexists. split; [reflexivity|].
  destruct (arrow_points_at_column demo_handler 4 7 "m" _ eq_refl)
    as (Hlen & Hget & _).
  split; [exact Hlen | exact Hget].
Defined.

(** ** Labels that are not text, and labels of numbers *)

(** X4: a label that is not a string stops [handle_error] with the
    TypeError of the concatenation, whatever the code, and nothing is
    appended.  This is what happens to a number whose [id] is a
    non-zero integer, and to a name that the lookup answers with
    [None]. *)
Theorem handle_error_label_not_text :
  (forall get_name_string error_code symbol w v,
      resolve_name get_name_string (self w) symbol = inr v ->
      (forall s, v <> Py.Str s) ->
      handle_error get_name_string error_code symbol w
      = (inl (Py.TypeError ("can only concatenate str (not " ++ Py.dquote
                              ++ Py.type_name v ++ Py.dquote ++ ") to str")),
         printed w))
  /\ (forall get_name_string error_code n l c w,
        n <> 0 ->
        handle_error get_name_string error_code
          {| type := NUMBER; id := Py.Int n; line := l; character_in_line := c |} w
        = (inl (Py.TypeError ("can only concatenate str (not " ++ Py.dquote
                                ++ "int" ++ Py.dquote ++ ") to str")),
           printed w)).
Proof.
  assert (General :
    forall gns error_code symbol w v,
      resolve_name gns (self w) symbol = inr v ->
      (forall s, v <> Py.Str s) ->
      handle_error gns error_code symbol w
      = (inl (Py.TypeError ("can only concatenate str (not " ++ Py.dquote
                              ++ Py.type_name v ++ Py.dquote ++ ") to str")),
         printed w)).
  { intros gns error_code symbol w v Hres Hv.
    rewrite handle_error_run. unfold line_diagnostic. rewrite Hres.
    destruct v as [|n|s]; [reflexivity | reflexivity | now destruct (Hv s)]. }
  split; [exact General|].
  intros gns error_code n l c w Hn.
  apply (General gns error_code _ w (Py.Int n)); [|discriminate].
  rewrite resolve_name_truthy; [reflexivity|].
  cbn. now destruct (Z.eqb_spec n 0).
Qed.

Lemma handle_error_label_not_text_witness :
  handle_error lookup_name_string 17
    {| type := NUMBER; id := Py.Int 12; line := 1; character_in_line := 9 |}
    demo_world
  = (inl (Py.TypeError ("can only concatenate str (not " ++ Py.dquote
                          ++ "int" ++ Py.dquote ++ ") to str")),
     printed demo_world)
  /\ handle_error lookup_name_string 15
       {| type := NAME; id := Py.Int 40; line := 1; character_in_line := 2 |}
       demo_world
     = (inl (Py.TypeError ("can only concatenate str (not " ++ Py.dquote
                             ++ "NoneType" ++ Py.dquote ++ ") to str")),
        printed demo_world).
Proof.
  split.
  - apply (proj2 handle_error_label_not_text lookup_name_string 17 12 1 9
             demo_world).
    discriminate.
  - apply (proj1 handle_error_label_not_text lookup_name_string 15
             {| type := NAME; id := Py.Int 40; line := 1; character_in_line := 2 |}
             demo_world Py.NoneV).
    + reflexivity.
    + discriminate.
Defined.

(** X5: the label of a number whose [id] is a non-empty string is that
    string; the name table is not consulted, so the outcome is the same
    for every lookup function, and it is the outcome of the catalog on
    that text followed by the construction of the diagnostic. *)
Theorem handle_error_number_label :
  forall lookup1 lookup2 error_code text l c w,
    text <> "" ->
    handle_error lookup1 error_code
      {| type := NUMBER; id := Py.Str text; line := l; character_in_line := c |} w
    = handle_error lookup2 error_code
        {| type := NUMBER; id := Py.Str text; line := l; character_in_line := c |} w
    /\ line_diagnostic lookup1 (self w) error_code
         {| type := NUMBER; id := Py.Str text; line := l; character_in_line := c |}
       = match get_error_message (self w) error_code (Py.Str text) with
         | inl e => inl e
         | inr m => get_line_terminal_output (self w) l c m
         end.
Proof.
  intros lookup1 lookup2 error_code text l c w Htext.
  assert (Ht : Py.truthy (Py.Str text) = true).
  { simpl. destruct (String.eqb_spec text ""); [contradiction | reflexivity]. }
  split.
  - rewrite !handle_error_run. unfold line_diagnostic.
    now rewrite !resolve_name_truthy by exact Ht.
  - unfold line_diagnostic. now rewrite resolve_name_truthy by exact Ht.
Qed.

Lemma handle_error_number_label_witness :
  handle_error lookup_name_string 17
    {| type := NUMBER; id := Py.Str "20"; line := 1; character_in_line := 9 |}
    demo_world
  = handle_error (fun _ _ => inl (Py.ValueError "no table")) 17
      {| type := NUMBER; id := Py.Str "20"; line := 1; character_in_line := 9 |}
      demo_world
  /\ line_diagnostic lookup_name_string (self demo_world) 17
       {| type := NUMBER; id := Py.Str "20"; line := 1; character_in_line := 9 |}
     = match get_error_message (self demo_world) 17 (Py.Str "20") with
       | inl e => inl e
       | inr m => get_line_terminal_output (self demo_world) 1 9 m
       end.
Proof.
  apply (handle_error_number_label lookup_name_string
           (fun _ _ => inl (Py.ValueError "no table")) 17 "20" 1 9 demo_world).
  discriminate.
Defined.

(** X6: for a punctuation mark or the end of file, without [id], with a
    declared code and a line of the cache, [handle_error] does not
    raise: it returns and leaves [error_output_list] equal to the old
    list followed by the diagnostic whose message is the catalog entry
    of the code at the quoted glyph, with the trace line printed and the
    rest of the handler unchanged. *)
Theorem handle_error_punctuation :
  forall get_name_string error_code symbol w glyph,
    Py.truthy (id symbol) = false ->
    fixed_label (type symbol) = Some glyph ->
    In error_code (declared_codes (self w)) ->
    0 <= line symbol < Z.of_nat (List.length (file_lines (scanner (self w)))) ->
    exists m src w',
      assoc error_code (catalog (self w) (quoted glyph)) = Some m
      /\ nth_error (file_lines (scanner (self w))) (Z.to_nat (line symbol))
         = Some src
      /\ handle_error get_name_string error_code symbol w = (inr tt, w')
      /\ error_output_list (self w')
         = (error_output_list (self w)
              ++ [OfLine
                    {| LineTerminalOutput.line_location :=
                         "Line " ++ Py.str_of_int (line symbol + 1) ++ ":";
                       LineTerminalOutput.line_with_issue := src;
                       LineTerminalOutput.arrow :=
                         spaces (Z.to_nat (character_in_line symbol)) ++ "^";
                       LineTerminalOutput.message := m |}])%list
      /\ stdout w' = (stdout w ++ ["handling error"])%list
      /\ frame (self w') = frame (self w).
Proof.
  intros gns error_code symbol w glyph Hid Hfix Hin Hl.
  rewrite <- (catalog_keys (self w) (quoted glyph)) in Hin.
  destruct (assoc_present _ _ Hin) as (m & Hm & _).
  destruct (nth_error (file_lines (scanner (self w))) (Z.to_nat (line symbol)))
    as [src|] eqn:Hsrc; [|apply nth_error_None in Hsrc; lia].
  exists m, src. eexists. split; [exact Hm|]. split; [reflexivity|].
  rewrite handle_error_run. unfold line_diagnostic.
  rewrite resolve_name_falsy by exact Hid. rewrite Hfix.
  rewrite get_error_message_catalog, Hm. unfold get_line_terminal_output.
  rewrite (getitem_in_range _ _ src) by (exact Hsrc || lia).
  rewrite mul_str_spaces. repeat split.
Qed.

Lemma handle_error_punctuation_witness :
  exists m src w',
    assoc 26 (catalog (self demo_world) (quoted ">")) = Some m
    /\ nth_error (file_lines (scanner (self demo_world)))
         (Z.to_nat (line demo_symbol)) = Some src
    /\ handle_error lookup_name_string 26 demo_symbol demo_world = (inr tt, w')
    /\ error_output_list (self w')
       = (error_output_list (self demo_world)
            ++ [OfLine
                  {| LineTerminalOutput.line_location :=
                       "Line " ++ Py.str_of_int (line demo_symbol + 1) ++ ":";
                     LineTerminalOutput.line_with_issue := src;
                     LineTerminalOutput.arrow :=
                       spaces (Z.to_nat (character_in_line demo_symbol)) ++ "^";
                     LineTerminalOutput.message := m |}])%list
    /\ stdout w' = (stdout demo_world ++ ["handling error"])%list
    /\ frame (self w') = frame (self demo_world).
Proof.
  apply (handle_error_punctuation lookup_name_string 26 demo_symbol demo_world ">").
  - reflexivity.
  - reflexivity.
  - vm_compute. tauto.
  - vm_compute. split; [discriminate | reflexivity].
Defined.

(** ** What the catalog puts in a message *)

Lemma assoc_member (k : Z) (v : string) (l : list (Z * string)) :
  assoc k l = Some v -> In (k, v) l.
Proof.
  induction l as [|[k' v'] t IH]; simpl; [discriminate|].
  destruct (Z.eqb_spec k k') as [->|_].
  - intros H; inversion H; auto.
  - auto.
Qed.

Lemma get_error_message_member (h : ParserErrorHandler) (error_code : Z)
    (label m : string) :
  get_error_message h error_code (Py.Str label) = inr m ->
  In (error_code, m) (catalog h (quoted label)).
Proof.
  rewrite get_error_message_catalog.
  destruct (assoc error_code (catalog h (quoted label))) as [m'|] eqn:Hm;
    [|discriminate].
  intros H; inversion H; subst. now apply assoc_member.
Qed.

Lemma append_empty_r (s : string) : s ++ "" = s.
Proof. induction s as [|a s IH]; simpl; congruence. Qed.

Lemma append_cancel_l (s a b : string) : s ++ a = s ++ b -> a = b.
Proof. induction s as [|c s IH]; simpl; intros H; [assumption|]. inversion H; auto. Qed.

Ltac contains_label :=
  match goal with
  | |- contains ?q (?pre ++ ?q ++ ?post) => exists pre, post; reflexivity
  | |- contains ?q (?pre ++ ?q) =>
      exists pre, ""; now rewrite append_empty_r
  | |- contains ?q (?q ++ ?post) => exists "", post; reflexivity
  end.

(** X7: with pairwise distinct codes, the two codes
    [MISSING_CLOCK_OR_SWITCH] and [MONITOR_NOT_DEFINED] have a message
    that does not depend on the label, and the message of every other
    declared code contains the label between its quotes. *)
Theorem label_substitution :
  forall h error_code label m,
    codes_distinct h ->
    get_error_message h error_code (Py.Str label) = inr m ->
    (error_code = MISSING_CLOCK_OR_SWITCH h
     \/ error_code = MONITOR_NOT_DEFINED h ->
     forall label', get_error_message h error_code (Py.Str label') = inr m)
    /\ (error_code <> MISSING_CLOCK_OR_SWITCH h ->
        error_code <> MONITOR_NOT_DEFINED h ->
        contains (quoted label) m).
Proof.
  intros h error_code label m Hd Hm. split.
  - intros Hcode label'.
    rewrite get_error_message_catalog in Hm |- *.
    destruct Hcode as [-> | ->].
    + erewrite assoc_first in Hm;
        [| now rewrite catalog_keys | in_table].
      erewrite assoc_first; [exact Hm | now rewrite catalog_keys | in_table].
    + erewrite assoc_first in Hm;
        [| now rewrite catalog_keys | in_table].
      erewrite assoc_first; [exact Hm | now rewrite catalog_keys | in_table].
  - intros Hne1 Hne2. apply get_error_message_member in Hm.
    unfold catalog in Hm. cbn [In] in Hm.
    repeat (destruct Hm as [Hm|Hm];
            [pose proof (f_equal fst Hm) as Hc; pose proof (f_equal snd Hm) as Ht;
             cbn [fst snd] in Hc, Ht; subst m;
             first [contains_label | congruence]|]).
    contradiction.
Qed.

Lemma label_substitution_witness :
  (MISSING_CLOCK_OR_SWITCH demo_handler = MISSING_CLOCK_OR_SWITCH demo_handler
   \/ MISSING_CLOCK_OR_SWITCH demo_handler = MONITOR_NOT_DEFINED demo_handler ->
   forall label',
     get_error_message demo_handler 32 (Py.Str label')
     = inr "At least one list between 'CLOCK' and 'SWITCH' is needed. neither is found")
  /\ (15 <> MISSING_CLOCK_OR_SWITCH demo_handler ->
      15 <> MONITOR_NOT_DEFINED demo_handler ->
      contains (quoted "B") ("Found " ++ quoted "B" ++ ", expected a non-keyword identifier")).
Proof.
  assert (Hd : codes_distinct demo_handler)
    by (apply distinctb_NoDup; reflexivity).
  split.
  - apply (proj1 (label_substitution demo_handler 32 "B"
                    "At least one list between 'CLOCK' and 'SWITCH' is needed. neither is found"
                    Hd eq_refl)).
  - apply (proj2 (label_substitution demo_handler 15 "B"
                    ("Found " ++ quoted "B" ++ ", expected a non-keyword identifier")
                    Hd eq_refl)).
Defined.

Ltac project_entry H Hc Ht :=
  pose proof (f_equal fst H) as Hc; pose proof (f_equal snd H) as Ht;
  cbn [fst snd] in Hc, Ht; clear H.

Ltac same_or_differ Hc1 Hc2 Ht :=
  first
    [ left; rewrite <- Hc1, <- Hc2; reflexivity
    | right; unfold shares_template; rewrite <- Hc1, <- Hc2; solve [auto 10]
    | exfalso; cbn in Ht; discriminate Ht
    | exfalso; apply append_cancel_l in Ht; try apply append_cancel_l in Ht;
      cbn in Ht; discriminate Ht ].

(** X8: a message tells which code it was made for, up to the two pairs
    of codes that share a template: if two codes get the same message
    for the same label, they are equal, or they are the two optional-pin
    codes, or they are the two redefinition codes. *)
Theorem message_identifies_code :
  forall h label c1 c2 m,
    get_error_message h c1 (Py.Str label) = inr m ->
    get_error_message h c2 (Py.Str label) = inr m ->
    c1 = c2 \/ shares_template h c1 c2.
Proof.
  intros h label c1 c2 m H1 H2.
  apply get_error_message_member in H1. apply get_error_message_member in H2.
  unfold catalog in H1. cbn [In] in H1.
  repeat (destruct H1 as [H1|H1];
          [project_entry H1 Hc1 Ht1; subst m;
           unfold catalog in H2; cbn [In] in H2;
           repeat (destruct H2 as [H2|H2];
                   [project_entry H2 Hc2 Ht2; same_or_differ Hc1 Hc2 Ht2|]);
           contradiction|]).
  contradiction.
Qed.

Lemma message_identifies_code_witness :
  28 = 31 \/ shares_template demo_handler 28 31.
Proof.
  apply (message_identifies_code demo_handler "A" 28 31
           ("Found " ++ quoted "A"
              ++ ", expected '.' (if pin has to be defined) or ';' (if pin does not have to be defined)"));
    reflexivity.
Defined.

(** X9: with pairwise distinct codes, the redefinition of a device and
    the redefinition of a monitor are reported with the same message,
    "Identifier ... should not be redefined". *)
Theorem redefinition_codes_share_message :
  forall h label,
    codes_distinct h ->
    get_error_message h (DEVICE_PRESENT (devices h)) (Py.Str label)
    = inr ("Identifier " ++ quoted label ++ " should not be redefined")
    /\ get_error_message h (MONITOR_PRESENT (monitors h)) (Py.Str label)
       = inr ("Identifier " ++ quoted label ++ " should not be redefined").
Proof.
  intros h label Hd. split; rewrite get_error_message_catalog;
    (erewrite assoc_first; [reflexivity | now rewrite catalog_keys | in_table]).
Qed.

Lemma redefinition_codes_share_message_witness :
  get_error_message demo_handler 5 (Py.Str "A")
  = inr ("Identifier " ++ quoted "A" ++ " should not be redefined")
  /\ get_error_message demo_handler 14 (Py.Str "A")
     = inr ("Identifier " ++ quoted "A" ++ " should not be redefined").
Proof.
  apply (redefinition_codes_share_message demo_handler "A").
  apply distinctb_NoDup. reflexivity.
Defined.

(** X10: the message "Missing input to pin ..." of the disabled branch
    is never returned, for no handler, code or label. *)
Theorem missing_input_never_reported :
  forall h error_code name q,
    get_error_message h error_code name <> inr ("Missing input to pin " ++ q).
Proof.
  intros h error_code name q H.
  destruct name as [|n|label]; try discriminate H.
  apply get_error_message_member in H.
  unfold catalog in H. cbn [In] in H.
  repeat (destruct H as [H|H];
          [apply (f_equal snd) in H; cbn in H; discriminate H|]).
  contradiction.
Qed.

(** ** Effects of [file_error] and the trace line of [handle_error] *)

(** X11: [file_error] writes nothing on the standard output and changes
    nothing of the handler but [error_output_list]; when it returns, one
    file diagnostic has been appended, and when it raises the state is
    the one before the call. *)
Theorem file_error_frame :
  forall error_code w r w',
    file_error error_code w = (r, w') ->
    stdout w' = stdout w
    /\ frame (self w') = frame (self w)
    /\ (r = inr tt ->
        exists d, error_output_list (self w')
                  = (error_output_list (self w) ++ [OfFile d])%list)
    /\ (forall e, r = inl e -> w' = w).
Proof.
  intros error_code w r w'. rewrite file_error_run.
  destruct (file_diagnostic (self w) error_code) as [e|d];
    intros H; inversion H; subst; clear H.
  - repeat split. discriminate.
  - repeat split; [now exists d | discriminate].
Qed.

Lemma file_error_frame_witness :
  stdout (snd (file_error 35 demo_world)) = stdout demo_world
  /\ frame (self (snd (file_error 35 demo_world))) = frame (self demo_world)
  /\ (fst (file_error 35 demo_world) = inr tt ->
      exists d, error_output_list (self (snd (file_error 35 demo_world)))
                = (error_output_list (self demo_world) ++ [OfFile d])%list)
  /\ (forall e, fst (file_error 35 demo_world) = inl e ->
                snd (file_error 35 demo_world) = demo_world).
Proof.
  apply (file_error_frame 35 demo_world). reflexivity.
Defined.

(** X12: every call of [handle_error] prints the line "handling error"
    once, whether it returns or raises, and a call that raises changes
    nothing else. *)
Theorem handle_error_always_prints :
  forall get_name_string error_code symbol w r w',
    handle_error get_name_string error_code symbol w = (r, w') ->
    stdout w' = (stdout w ++ ["handling error"])%list
    /\ (forall e, r = inl e -> self w' = self w).
Proof.
  intros gns error_code symbol w r w'. rewrite handle_error_run.
  destruct (line_diagnostic gns (self w) error_code symbol) as [e|d];
    intros H; inversion H; subst; clear H.
  - split; reflexivity.
  - split; [reflexivity | discriminate].
Qed.

Lemma handle_error_always_prints_witness :
  stdout (snd (handle_error lookup_name_string 15 first_keyword_symbol demo_world))
  = (stdout demo_world ++ ["handling error"])%list
  /\ (forall e,
        fst (handle_error lookup_name_string 15 first_keyword_symbol demo_world)
        = inl e ->
        self (snd (handle_error lookup_name_string 15 first_keyword_symbol demo_world))
        = self demo_world).
Proof.
  apply (handle_error_always_prints lookup_name_string 15 first_keyword_symbol
           demo_world).
  reflexivity.
Defined.

(** ** A whole pass *)

Lemma frame_determines (h h' : ParserErrorHandler) :
  frame h = frame h' ->
  h' = set_error_output_list (error_output_list h') h.
Proof.
  destruct h, h'. unfold frame, set_error_output_list. cbn.
  intros H. inversion H. reflexivity.
Qed.

Section Pass.

Variable get_name_string : Names -> Py.value -> Py.result Py.value.

Lemma diagnostic_of_frame (h h' : ParserErrorHandler) (r : report) :
  frame h = frame h' ->
  diagnostic_of get_name_string h' r = diagnostic_of get_name_string h r.
Proof.
  intros Hf. rewrite (frame_determines h h' Hf).
  destruct r; unfold diagnostic_of;
    [now rewrite line_diagnostic_frame | now rewrite file_diagnostic_frame].
Qed.

Lemma perform_step (r : report) (w : World) :
  exists w1,
    frame (self w1) = frame (self w)
    /\ match diagnostic_of get_name_string (self w) r with
       | inr d => perform get_name_string r w = (inr tt, w1)
                  /\ error_output_list (self w1)
                     = (error_output_list (self w) ++ [d])%list
       | inl e => perform get_name_string r w = (inl e, w1)
                  /\ error_output_list (self w1) = error_output_list (self w)
       end.
Proof.
  destruct r as [error_code symbol | error_code]; unfold perform, diagnostic_of.
  - rewrite handle_error_run.
    destruct (line_diagnostic get_name_string (self w) error_code symbol) as [e|d].
    + exists (printed w). repeat split.
    + exists (appended [OfLine d] (printed w)). repeat split.
  - rewrite file_error_run.
    destruct (file_diagnostic (self w) error_code) as [e|d].
    + exists w. repeat split.
    + exists (appended [OfFile d] w). repeat split.
Qed.

Lemma perform_all_returns (rs : list report) :
  forall w ds,
    Forall2 (fun r d => diagnostic_of get_name_string (self w) r = inr d) rs ds ->
    exists w',
      perform_all get_name_string rs w = (inr tt, w')
      /\ error_output_list (self w') = (error_output_list (self w) ++ ds)%list
      /\ frame (self w') = frame (self w).
Proof.
  induction rs as [|r rs IH]; intros w ds Hall; inversion Hall; subst.
  - exists w. repeat split. now rewrite app_nil_r.
  - destruct (perform_step r w) as (w1 & Hf & Hstep).
    match goal with H : diagnostic_of _ _ r = inr ?y |- _ =>
      rewrite H in Hstep; rename y into d end.
    destruct Hstep as [Hrun Hlist].
    destruct (IH w1 l') as (w' & Hrun' & Hlist' & Hf').
    { eapply Forall2_impl; [|eassumption]. cbn. intros r0 d0 Hd0.
      now rewrite (diagnostic_of_frame (self w) (self w1)). }
    exists w'. cbn [perform_all]. unfold bind. rewrite Hrun, Hrun'.
    repeat split.
    + rewrite Hlist', Hlist, <- app_assoc. reflexivity.
    + congruence.
Qed.

Lemma perform_all_outcome (rs : list report) :
  forall w res w',
    perform_all get_name_string rs w = (res, w') ->
    match res with
    | inr _ =>
        exists ds,
          Forall2 (fun r d => diagnostic_of get_name_string (self w) r = inr d) rs ds
          /\ error_output_list (self w') = (error_output_list (self w) ++ ds)%list
    | inl e =>
        exists done r rest ds,
          rs = (done ++ r :: rest)%list
          /\ Forall2 (fun r d => diagnostic_of get_name_string (self w) r = inr d)
               done ds
          /\ diagnostic_of get_name_string (self w) r = inl e
          /\ error_output_list (self w') = (error_output_list (self w) ++ ds)%list
    end.
Proof.
  induction rs as [|r rs IH]; intros w res w' Hrun.
  - cbn in Hrun. inversion Hrun; subst. exists []. split; [constructor|].
    now rewrite app_nil_r.
  - cbn [perform_all] in Hrun. unfold bind in Hrun.
    destruct (perform_step r w) as (w1 & Hf & Hstep).
    destruct (diagnostic_of get_name_string (self w) r) as [e|d] eqn:Hd.
    + destruct Hstep as [Hr Hlist]. rewrite Hr in Hrun.
      inversion Hrun; subst.
      exists [], r, rs, []. repeat split; [constructor | assumption |].
      now rewrite app_nil_r.
    + destruct Hstep as [Hr Hlist]. rewrite Hr in Hrun.
      specialize (IH w1 res w' Hrun). destruct res as [e|u].
      * destruct IH as (done & r' & rest & ds & Hrs & Hall & He & Hl).
        exists (r :: done), r', rest, (d :: ds). repeat split.
        -- now rewrite Hrs.
        -- constructor; [assumption|].
           eapply Forall2_impl; [|eassumption]. cbn. intros r0 d0 Hd0.
           now rewrite <- (diagnostic_of_frame (self w) (self w1)).
        -- now rewrite <- (diagnostic_of_frame (self w) (self w1)).
        -- rewrite Hl, Hlist, <- app_assoc. reflexivity.
      * destruct IH as (ds & Hall & Hl).
        exists (d :: ds). split.
        -- constructor; [assumption|].
           eapply Forall2_impl; [|eassumption]. cbn. intros r0 d0 Hd0.
           now rewrite <- (diagnostic_of_frame (self w) (self w1)).
        -- rewrite Hl, Hlist, <- app_assoc. reflexivity.
Qed.

End Pass.

(** X13: a pass of any number of reports whose diagnostics all exist
    returns and leaves the old list followed by those diagnostics, one
    per report and in the order of the reports, with the rest of the
    handler unchanged. *)
Theorem pass_appends_in_order :
  forall get_name_string rs w ds,
    Forall2 (fun r d => diagnostic_of get_name_string (self w) r = inr d) rs ds ->
    exists w',
      perform_all get_name_string rs w = (inr tt, w')
      /\ error_output_list (self w') = (error_output_list (self w) ++ ds)%list
      /\ List.length (error_output_list (self w'))
         = (List.length (error_output_list (self w)) + List.length rs)%nat
      /\ frame (self w') = frame (self w).
Proof.
  intros gns rs w ds Hall.
  destruct (perform_all_returns gns rs w ds Hall) as (w' & Hrun & Hl & Hf).
  exists w'. repeat split; try assumption.
  rewrite Hl, length_app. f_equal. symmetry. eapply Forall2_length; eassumption.
Qed.

Lemma pass_appends_in_order_witness :
  exists w',
    perform_all lookup_name_string
      [Positional 26 demo_symbol; File 35; Positional 26 demo_symbol] demo_world
    = (inr tt, w')
    /\ List.length (error_output_list (self w')) = 3%nat.
Proof.
  destruct (pass_appends_in_order lookup_name_string
              [Positional 26 demo_symbol; File 35; Positional 26 demo_symbol]
              demo_world
              [OfLine {| LineTerminalOutput.line_location := "Line 5:";
                         LineTerminalOutput.line_with_issue := "A -> B;";
                         LineTerminalOutput.arrow := "       ^";
                         LineTerminalOutput.message :=
                           "Found " ++ quoted ">" ++ ", expected ';'" |};
               OfFile {| FileTerminalOutput.message :=
                           "At least one monitor should be defined" |};
               OfLine {| LineTerminalOutput.line_location := "Line 5:";
                         LineTerminalOutput.line_with_issue := "A -> B;";
                         LineTerminalOutput.arrow := "       ^";
                         LineTerminalOutput.message :=
                           "Found " ++ quoted ">" ++ ", expected ';'" |}])
    as (w' & Hrun & _ & Hlen & _).
  - repeat constructor.
  - exists w'. split; [exact Hrun | exact Hlen].
Defined.

(** X14: a pass stopped by an exception keeps what was reported before:
    the list is the old one followed by the diagnostics of the reports
    that precede the failing one, and the exception is the one of that
    report; a pass that returns has a diagnostic for every report. *)
Theorem pass_keeps_earlier_reports :
  forall get_name_string rs w res w',
    perform_all get_name_string rs w = (res, w') ->
    match res with
    | inr _ =>
        exists ds,
          Forall2 (fun r d => diagnostic_of get_name_string (self w) r = inr d) rs ds
          /\ error_output_list (self w') = (error_output_list (self w) ++ ds)%list
    | inl e =>
        exists done r rest ds,
          rs = (done ++ r :: rest)%list
          /\ Forall2 (fun r d => diagnostic_of get_name_string (self w) r = inr d)
               done ds
          /\ diagnostic_of get_name_string (self w) r = inl e
          /\ error_output_list (self w') = (error_output_list (self w) ++ ds)%list
    end.
Proof.
  intros gns rs w res w'. apply perform_all_outcome.
Qed.

Lemma pass_keeps_earlier_reports_witness :
  exists done r rest ds,
    [Positional 26 demo_symbol; Positional 15 first_keyword_symbol; File 35]
    = (done ++ r :: rest)%list
    /\ Forall2 (fun r d => diagnostic_of lookup_name_string (self demo_world) r
                           = inr d) done ds
    /\ diagnostic_of lookup_name_string (self demo_world) r = inl invalid_symbol
    /\ error_output_list
         (self (snd (perform_all lookup_name_string
                       [Positional 26 demo_symbol;
                        Positional 15 first_keyword_symbol; File 35] demo_world)))
       = (error_output_list (self demo_world) ++ ds)%list.
Proof.
  apply (pass_keeps_earlier_reports lookup_name_string
           [Positional 26 demo_symbol; Positional 15 first_keyword_symbol; File 35]
           demo_world (inl invalid_symbol)).
  reflexivity.
Defined.

(** ** The lines of a rendering *)

Lemma no_newline_app (a b : string) :
  no_newline (a ++ b) = no_newline a && no_newline b.
Proof.
  unfold no_newline. induction a as [|c a IH]; simpl; [reflexivity|].
  rewrite IH. now rewrite andb_assoc.
Qed.

Lemma append_assoc_r (a b c : string) : (a ++ b) ++ c = a ++ b ++ c.
Proof. induction a as [|x a IH]; simpl; congruence. Qed.

Lemma split_lines_no_newline (s : string) :
  no_newline s = true -> split_lines s = [s].
Proof.
  unfold no_newline. induction s as [|c s IH]; simpl; [reflexivity|].
  intros H. apply andb_true_iff in H as [Hc Hs].
  apply negb_true_iff in Hc. rewrite Hc, (IH Hs). reflexivity.
Qed.

Lemma split_lines_line (s t : string) :
  no_newline s = true ->
  split_lines (s ++ Py.nl ++ t) = s :: split_lines t.
Proof.
  unfold no_newline. induction s as [|c s IH]; simpl; [reflexivity|].
  intros H. apply andb_true_iff in H as [Hc Hs].
  apply negb_true_iff in Hc. rewrite Hc. simpl in IH. rewrite (IH Hs).
  reflexivity.
Qed.

Lemma string_of_uint_no_newline (d : Decimal.uint) :
  no_newline (NilEmpty.string_of_uint d) = true.
Proof. induction d; simpl; auto. Qed.

Lemma str_of_int_no_newline (n : Z) : no_newline (Py.str_of_int n) = true.
Proof.
  unfold Py.str_of_int, NilZero.string_of_int, NilZero.string_of_uint.
  assert (Hu : forall d,
    no_newline (match d with
                | Decimal.Nil => "0"
                | _ => NilEmpty.string_of_uint d
                end) = true).
  { intros d. destruct d; try reflexivity; apply string_of_uint_no_newline. }
  destruct (Z.to_int n) as [d|d]; [apply Hu|].
  change (no_newline ("-" ++ match d with
                             | Decimal.Nil => "0"
                             | _ => NilEmpty.string_of_uint d
                             end) = true).
  now rewrite no_newline_app, Hu.
Qed.

Lemma spaces_no_newline (n : nat) : no_newline (spaces n) = true.
Proof. unfold spaces. induction n as [|k IH]; simpl; auto. Qed.

Lemma catalog_no_newline (h : ParserErrorHandler) (label : string) :
  no_newline label = true ->
  Forall (fun p => no_newline (snd p) = true) (catalog h (quoted label)).
Proof.
  intros Hl. unfold catalog, quoted.
  repeat (constructor;
          [cbn [snd]; rewrite ?no_newline_app, ?Hl; reflexivity|]).
  constructor.
Qed.

(** X15: a file diagnostic appended by [file_error] always renders as
    exactly three lines: an empty one, "File error: " followed by the
    message, and an empty one. *)
Theorem file_diagnostic_three_lines :
  forall error_code w w',
    file_error error_code w = (inr tt, w') ->
    exists m,
      error_output_list (self w')
      = (error_output_list (self w)
           ++ [OfFile {| FileTerminalOutput.message := m |}])%list
      /\ split_lines (str (OfFile {| FileTerminalOutput.message := m |}))
         = [""; "File error: " ++ m; ""].
Proof.
  intros error_code w w'. rewrite file_error_run. unfold file_diagnostic.
  destruct (get_error_message (self w) error_code (Py.Str "")) as [e|m] eqn:Hm;
    intros H; inversion H; subst; clear H.
  exists m. split; [reflexivity|].
  apply get_error_message_member in Hm.
  pose proof (catalog_no_newline (self w) "" eq_refl) as Hall.
  rewrite Forall_forall in Hall. specialize (Hall _ Hm). cbn [snd] in Hall.
  unfold str, FileTerminalOutput.str. cbn [FileTerminalOutput.message].
  change (Py.nl ++ "File error: " ++ m ++ Py.nl)
    with ("" ++ Py.nl ++ ("File error: " ++ m) ++ Py.nl ++ "").
  rewrite split_lines_line by reflexivity.
  rewrite split_lines_line; [reflexivity|].
  now rewrite no_newline_app, Hall.
Qed.

Lemma file_diagnostic_three_lines_witness :
  exists m,
    error_output_list (self (snd (file_error 35 demo_world)))
    = (error_output_list (self demo_world)
         ++ [OfFile {| FileTerminalOutput.message := m |}])%list
    /\ split_lines (str (OfFile {| FileTerminalOutput.message := m |}))
       = [""; "File error: " ++ m; ""].
Proof.
  apply (file_diagnostic_three_lines 35 demo_world). reflexivity.
Defined.

Lemma message_not_arrow (h : ParserErrorHandler) (error_code : Z)
    (name : Py.value) :
  get_error_message h error_code name <> inr "       ^".
Proof.
  intros H. destruct name as [|n|label]; try discriminate H.
  apply get_error_message_member in H.
  unfold catalog in H. cbn [In] in H.
  repeat (destruct H as [H|H];
          [apply (f_equal snd) in H; cbn in H; discriminate H|]).
  contradiction.
Qed.

Lemma five_lines (loc src arrow m : string) :
  no_newline loc = true -> no_newline (src ++ arrow) = true ->
  no_newline m = true ->
  split_lines (Py.nl ++ loc ++ Py.nl ++ src ++ arrow ++ Py.nl ++ m ++ Py.nl)
  = [""; loc; src ++ arrow; m; ""].
Proof.
  intros Hloc Harrow Hm.
  change (Py.nl ++ loc ++ Py.nl ++ src ++ arrow ++ Py.nl ++ m ++ Py.nl)
    with ("" ++ Py.nl ++ loc ++ Py.nl ++ src ++ arrow ++ Py.nl ++ m ++ Py.nl).
  rewrite split_lines_line by reflexivity.
  rewrite split_lines_line by exact Hloc.
  replace (src ++ arrow ++ Py.nl ++ m ++ Py.nl)
    with ((src ++ arrow) ++ Py.nl ++ m ++ Py.nl ++ "")
    by (now rewrite append_assoc_r, append_empty_r).
  rewrite split_lines_line by exact Harrow.
  rewrite split_lines_line by exact Hm. reflexivity.
Qed.

Lemma six_lines (loc body arrow m : string) :
  no_newline loc = true -> no_newline body = true ->
  no_newline arrow = true -> no_newline m = true ->
  split_lines
    (Py.nl ++ loc ++ Py.nl ++ (body ++ Py.nl) ++ arrow ++ Py.nl ++ m ++ Py.nl)
  = [""; loc; body; arrow; m; ""].
Proof.
  intros Hloc Hbody Harrow Hm.
  change (Py.nl ++ loc ++ Py.nl ++ (body ++ Py.nl) ++ arrow ++ Py.nl ++ m ++ Py.nl)
    with ("" ++ Py.nl ++ loc ++ Py.nl ++ (body ++ Py.nl) ++ arrow ++ Py.nl
             ++ m ++ Py.nl).
  rewrite split_lines_line by reflexivity.
  rewrite split_lines_line by exact Hloc.
  rewrite append_assoc_r.
  rewrite split_lines_line by exact Hbody.
  replace (arrow ++ Py.nl ++ m ++ Py.nl)
    with (arrow ++ Py.nl ++ m ++ Py.nl ++ "")
    by (now rewrite append_empty_r).
  rewrite split_lines_line by exact Harrow.
  rewrite split_lines_line by exact Hm. reflexivity.
Qed.

(** X16: when the label of the symbol and the cached line contain no
    newline, [handle_error] with a declared code returns and leaves
    [error_output_list] equal to the old list followed by a diagnostic
    that renders as exactly five lines: an empty one, the location, the
    cached line with the arrow after it, the message, and an empty
    one. *)
Theorem line_diagnostic_five_lines :
  forall get_name_string error_code symbol w label src,
    resolve_name get_name_string (self w) symbol = inr (Py.Str label) ->
    no_newline label = true ->
    In error_code (declared_codes (self w)) ->
    0 <= line symbol ->
    nth_error (file_lines (scanner (self w))) (Z.to_nat (line symbol)) = Some src ->
    no_newline src = true ->
    exists m d w',
      handle_error get_name_string error_code symbol w = (inr tt, w')
      /\ error_output_list (self w')
         = (error_output_list (self w) ++ [OfLine d])%list
      /\ assoc error_code (catalog (self w) (quoted label)) = Some m
      /\ split_lines (str (OfLine d))
         = [""; "Line " ++ Py.str_of_int (line symbol + 1) ++ ":";
            src ++ spaces (Z.to_nat (character_in_line symbol)) ++ "^";
            m; ""].
Proof.
  intros gns error_code symbol w label src Hres Hlabel Hin Hl Hnth Hsrc.
  rewrite <- (catalog_keys (self w) (quoted label)) in Hin.
  destruct (assoc_present _ _ Hin) as (m & Hm & Hmem).
  pose proof (catalog_no_newline (self w) label Hlabel) as Hall.
  rewrite Forall_forall in Hall. specialize (Hall _ Hmem). cbn [snd] in Hall.
  exists m. eexists. eexists.
  rewrite handle_error_run. unfold line_diagnostic.
  rewrite Hres, get_error_message_catalog, Hm.
  unfold get_line_terminal_output.
  rewrite (getitem_in_range _ _ _ Hl Hnth).
  split; [reflexivity|]. split; [reflexivity|]. split; [reflexivity|].
  unfold str, LineTerminalOutput.str.
  cbn [LineTerminalOutput.line_location LineTerminalOutput.line_with_issue
       LineTerminalOutput.arrow LineTerminalOutput.message].
  rewrite mul_str_spaces. apply five_lines.
  - now rewrite !no_newline_app, str_of_int_no_newline.
  - now rewrite !no_newline_app, Hsrc, spaces_no_newline.
  - exact Hall.
Qed.

Lemma line_diagnostic_five_lines_witness :
  exists m d w',
    handle_error lookup_name_string 26 demo_symbol demo_world = (inr tt, w')
    /\ error_output_list (self w')
       = (error_output_list (self demo_world) ++ [OfLine d])%list
    /\ assoc 26 (catalog (self demo_world) (quoted ">")) = Some m
    /\ split_lines (str (OfLine d))
       = [""; "Line " ++ Py.str_of_int (line demo_symbol + 1) ++ ":";
          "A -> B;" ++ spaces (Z.to_nat (character_in_line demo_symbol)) ++ "^";
          m; ""].
Proof.
  apply (line_diagnostic_five_lines lookup_name_string 26 demo_symbol
           demo_world ">" "A -> B;"); try reflexivity.
  - vm_compute. tauto.
  - vm_compute. discriminate.
Defined.

(** ** The caret line *)

(** C5, behaviour of the code: [__str__] puts no line break between the
    cached line and the arrow.  When the label resolves, the code has a
    message and line L indexes the cache, [handle_error] returns and
    leaves [error_output_list] equal to the old list followed by a
    diagnostic that renders as a newline, "Line {L+1}:", a newline, the
    cached line directly followed by C spaces and a caret, a newline,
    the message and a newline.  For line 4, column 7 over the cached
    line "A -> B;" the rendering contains "Line 5:" and "A -> B;", but
    the line after "Line 5:" is "A -> B;" followed by the 7 spaces and
    the caret, and no line is made of 7 spaces and a caret.  Only when
    the cached line itself ends with a newline is the arrow, C spaces
    and a caret, a line of its own under the source text. *)
Theorem handle_error_rendering :
  (forall get_name_string error_code symbol w name message source_line,
      resolve_name get_name_string (self w) symbol = inr name ->
      get_error_message (self w) error_code name = inr message ->
      0 <= line symbol ->
      nth_error (file_lines (scanner (self w))) (Z.to_nat (line symbol))
      = Some source_line ->
      exists d w',
        handle_error get_name_string error_code symbol w = (inr tt, w')
        /\ error_output_list (self w')
           = (error_output_list (self w) ++ [OfLine d])%list
        /\ str (OfLine d)
           = Py.nl ++ ("Line " ++ Py.str_of_int (line symbol + 1) ++ ":")
               ++ Py.nl ++ source_line
               ++ (spaces (Z.to_nat (character_in_line symbol)) ++ "^")
               ++ Py.nl ++ message ++ Py.nl)
  /\ (forall get_name_string error_code symbol w name message,
        resolve_name get_name_string (self w) symbol = inr name ->
        get_error_message (self w) error_code name = inr message ->
        line symbol = 4 ->
        character_in_line symbol = 7 ->
        nth_error (file_lines (scanner (self w))) 4 = Some "A -> B;" ->
        exists d w',
          handle_error get_name_string error_code symbol w = (inr tt, w')
          /\ error_output_list (self w')
             = (error_output_list (self w) ++ [OfLine d])%list
          /\ contains "Line 5:" (str (OfLine d))
          /\ contains "A -> B;" (str (OfLine d))
          /\ nth_error (split_lines (str (OfLine d))) 1 = Some "Line 5:"
          /\ nth_error (split_lines (str (OfLine d))) 2
             = Some "A -> B;       ^"
          /\ (no_newline message = true ->
              ~ In "       ^" (split_lines (str (OfLine d)))))
  /\ (forall get_name_string error_code symbol w name message body,
        resolve_name get_name_string (self w) symbol = inr name ->
        get_error_message (self w) error_code name = inr message ->
        0 <= line symbol ->
        nth_error (file_lines (scanner (self w))) (Z.to_nat (line symbol))
        = Some (body ++ Py.nl) ->
        no_newline body = true ->
        no_newline message = true ->
        exists d w',
          handle_error get_name_string error_code symbol w = (inr tt, w')
          /\ error_output_list (self w')
             = (error_output_list (self w) ++ [OfLine d])%list
          /\ split_lines (str (OfLine d))
             = [""; "Line " ++ Py.str_of_int (line symbol + 1) ++ ":"; body;
                spaces (Z.to_nat (character_in_line symbol)) ++ "^";
                message; ""]).
Proof.
  assert (General :
    forall gns error_code symbol w name message source_line,
      resolve_name gns (self w) symbol = inr name ->
      get_error_message (self w) error_code name = inr message ->
      0 <= line symbol ->
      nth_error (file_lines (scanner (self w))) (Z.to_nat (line symbol))
      = Some source_line ->
      exists d w',
        handle_error gns error_code symbol w = (inr tt, w')
        /\ error_output_list (self w')
           = (error_output_list (self w) ++ [OfLine d])%list
        /\ str (OfLine d)
           = Py.nl ++ ("Line " ++ Py.str_of_int (line symbol + 1) ++ ":")
               ++ Py.nl ++ source_line
               ++ (spaces (Z.to_nat (character_in_line symbol)) ++ "^")
               ++ Py.nl ++ message ++ Py.nl).
  { intros gns error_code symbol w name message source_line Hres Hmsg Hl Hnth.
    rewrite handle_error_run. unfold line_diagnostic.
    rewrite Hres, Hmsg. unfold get_line_terminal_output.
    rewrite (getitem_in_range _ _ _ Hl Hnth).
    eexists. eexists. split; [reflexivity|]. split; [reflexivity|].
    unfold str, LineTerminalOutput.str.
    cbn [LineTerminalOutput.line_location LineTerminalOutput.line_with_issue
         LineTerminalOutput.arrow LineTerminalOutput.message].
    now rewrite mul_str_spaces. }
  split; [exact General|]. split.
  - intros gns error_code symbol w name message Hres Hmsg Hl Hc Hnth.
    destruct (General gns error_code symbol w name message "A -> B;" Hres Hmsg)
      as (d & w' & Hrun & Hlist & Hstr).
    + rewrite Hl. lia.
    + rewrite Hl. exact Hnth.
    + exists d, w'. split; [exact Hrun|]. split; [exact Hlist|].
      rewrite Hstr, Hl, Hc.
      split; [|split; [|split; [|split]]].
      * exists Py.nl, (Py.nl ++ "A -> B;       ^" ++ Py.nl ++ message ++ Py.nl).
        reflexivity.
      * exists (Py.nl ++ "Line 5:" ++ Py.nl),
          ("       ^" ++ Py.nl ++ message ++ Py.nl).
        reflexivity.
      * reflexivity.
      * reflexivity.
      * intros Hm.
        change (Py.nl ++ ("Line " ++ Py.str_of_int (4 + 1) ++ ":") ++ Py.nl
                  ++ "A -> B;" ++ (spaces (Z.to_nat 7) ++ "^") ++ Py.nl
                  ++ message ++ Py.nl)
          with (Py.nl ++ "Line 5:" ++ Py.nl ++ "A -> B;" ++ "       ^" ++ Py.nl
                  ++ message ++ Py.nl).
        rewrite five_lines by (reflexivity || exact Hm).
        cbn [In]. intros [H|[H|[H|[H|[H|H]]]]];
          try discriminate H; try (cbn in H; discriminate H);
          try contradiction.
        subst message. exact (message_not_arrow _ _ _ Hmsg).
  - intros gns error_code symbol w name message body Hres Hmsg Hl Hnth Hb Hm.
    destruct (General gns error_code symbol w name message (body ++ Py.nl)
                Hres Hmsg Hl Hnth) as (d & w' & Hrun & Hlist & Hstr).
    exists d, w'. split; [exact Hrun|]. split; [exact Hlist|].
    rewrite Hstr. apply six_lines; try assumption.
    + now rewrite !no_newline_app, str_of_int_no_newline.
    + now rewrite no_newline_app, spaces_no_newline.
Qed.

Lemma handle_error_rendering_witness :
  exists d w',
    handle_error lookup_name_string 26 demo_symbol demo_world = (inr tt, w')
    /\ error_output_list (self w')
       = (error_output_list (self demo_world) ++ [OfLine d])%list
    /\ contains "Line 5:" (str (OfLine d))
    /\ contains "A -> B;" (str (OfLine d))
    /\ nth_error (split_lines (str (OfLine d))) 1 = Some "Line 5:"
    /\ nth_error (split_lines (str (OfLine d))) 2 = Some "A -> B;       ^"
    /\ (no_newline ("Found " ++ quoted ">" ++ ", expected ';'") = true ->
        ~ In "       ^" (split_lines (str (OfLine d)))).
Proof.
  apply (proj1 (proj2 handle_error_rendering) lookup_name_string 26 demo_symbol
           demo_world (Py.Str ">") ("Found " ++ quoted ">" ++ ", expected ';'"));
    reflexivity.
Defined.

(** ** The location text *)

Lemma append_cancel_r (u s t : string) : s ++ u = t ++ u -> s = t.
Proof.
  revert t. induction s as [|c s IH]; intros [|d t] H; simpl in H.
  - reflexivity.
  - apply (f_equal String.length) in H. simpl in H.
    rewrite append_length in H. lia.
  - apply (f_equal String.length) in H. simpl in H.
    rewrite append_length in H. lia.
  - inversion H; subst. f_equal. auto.
Qed.

Lemma to_int_not_nil (n : Z) :
  Z.to_int n <> Decimal.Pos Decimal.Nil /\ Z.to_int n <> Decimal.Neg Decimal.Nil.
Proof.
  destruct n as [|p|p]; simpl; split; try discriminate;
    intros H; inversion H as [Hp];
    now apply DecimalPos.Unsigned.to_uint_nonnil in Hp.
Qed.

Lemma str_of_int_inj (a b : Z) : Py.str_of_int a = Py.str_of_int b -> a = b.
Proof.
  unfold Py.str_of_int. intros H.
  apply DecimalZ.to_int_inj.
  destruct (to_int_not_nil a) as [Ha1 Ha2], (to_int_not_nil b) as [Hb1 Hb2].
  pose proof (NilZero.isi _ Ha1 Ha2) as Ia.
  pose proof (NilZero.isi _ Hb1 Hb2) as Ib.
  rewrite H in Ia. congruence.
Qed.

(** X17: the location text tells the line: two diagnostics built by
    [get_line_terminal_output] have the same location text only if they
    were built for the same line number. *)
Theorem line_location_identifies_line :
  forall h l1 c1 m1 d1 l2 c2 m2 d2,
    get_line_terminal_output h l1 c1 m1 = inr d1 ->
    get_line_terminal_output h l2 c2 m2 = inr d2 ->
    LineTerminalOutput.line_location d1 = LineTerminalOutput.line_location d2 ->
    l1 = l2.
Proof.
  intros h l1 c1 m1 d1 l2 c2 m2 d2. unfold get_line_terminal_output.
  destruct (Py.getitem (file_lines (scanner h)) l1); [discriminate|].
  destruct (Py.getitem (file_lines (scanner h)) l2); [discriminate|].
  intros H1 H2; inversion H1; inversion H2; subst; clear H1 H2.
  cbn [LineTerminalOutput.line_location]. intros H.
  apply (append_cancel_l "Line " (Py.str_of_int (l1 + 1) ++ ":")
           (Py.str_of_int (l2 + 1) ++ ":")) in H.
  apply append_cancel_r, str_of_int_inj in H. lia.
Qed.

Lemma line_location_identifies_line_witness :
  exists d1 d2,
    get_line_terminal_output demo_handler 4 7 "m" = inr d1
    /\ get_line_terminal_output demo_handler 4 0 "n" = inr d2
    /\ LineTerminalOutput.line_location d1 = LineTerminalOutput.line_location d2
    /\ 4 = 4.
Proof.
  do 2 eexists. split; [reflexivity|]. split; [reflexivity|].
  split; [reflexivity|].
  eapply (line_location_identifies_line demo_handler 4 7 "m" _ 4 0 "n" _);
    reflexivity.
Defined.

(** ** Construction of the handler *)


(** * Properties of the window *)

(** ** Order of strings and sorting *)

Lemma ascii_compare_trans (a b c : ascii) :
  Ascii.compare a b <> Gt -> Ascii.compare b c <> Gt ->
  Ascii.compare a c <> Gt
  /\ (Ascii.compare a c = Eq -> Ascii.compare a b = Eq /\ Ascii.compare b c = Eq).
Proof.
  unfold Ascii.compare.
  destruct (N.compare_spec (N_of_ascii a) (N_of_ascii b)),
           (N.compare_spec (N_of_ascii b) (N_of_ascii c)),
           (N.compare_spec (N_of_ascii a) (N_of_ascii c));
    intros; split; intros; try split; try congruence; try lia.
Qed.

Lemma string_compare_trans (s t u : string) :
  String.compare s t <> Gt -> String.compare t u <> Gt ->
  String.compare s u <> Gt.
Proof.
  revert t u. induction s as [|a s IH]; intros [|b t] [|c u]; simpl;
    try congruence.
  intros Hab Hbc.
  assert (Hab' : Ascii.compare a b <> Gt)
    by (destruct (Ascii.compare a b); congruence).
  assert (Hbc' : Ascii.compare b c <> Gt)
    by (destruct (Ascii.compare b c); congruence).
  destruct (ascii_compare_trans a b c Hab' Hbc') as [Hac Heq].
  destruct (Ascii.compare a c) eqn:E; try congruence.
  destruct (Heq eq_refl) as [E1 E2]. rewrite E1 in Hab. rewrite E2 in Hbc.
  eauto.
Qed.

Lemma leb_trans (s t u : string) :
  String.leb s t = true -> String.leb t u = true -> String.leb s u = true.
Proof.
  unfold String.leb. intros H1 H2.
  pose proof (string_compare_trans s t u) as H.
  destruct (String.compare s t), (String.compare t u), (String.compare s u);
    try reflexivity; try discriminate; exfalso; apply H; congruence.
Qed.

Lemma leb_refl (s : string) : String.leb s s = true.
Proof. destruct (String.leb_total s s); assumption. Qed.

Lemma insert_perm (x : string) (l : list string) :
  Permutation (PyList.insert x l) (x :: l).
Proof.
  induction l as [|y t IH]; simpl; [reflexivity|].
  destruct (String.leb x y); [reflexivity|].
  rewrite IH. apply perm_swap.
Qed.

Lemma sort_perm (l : list string) : Permutation (PyList.sort l) l.
Proof.
  induction l as [|x t IH]; simpl; [reflexivity|].
  rewrite insert_perm. now constructor.
Qed.

Lemma insert_sorted (x : string) (l : list string) :
  Gui.sorted l -> Gui.sorted (PyList.insert x l).
Proof.
  unfold Gui.sorted. induction l as [|y t IH]; simpl; intros Hs.
  - repeat constructor.
  - inversion Hs as [|? ? Ht Hall]; subst.
    destruct (String.leb x y) eqn:Hxy.
    + constructor; [assumption|]. constructor; [assumption|].
      eapply Forall_impl; [|exact Hall]. cbn. intros z Hz.
      eapply leb_trans; eassumption.
    + constructor; [auto|].
      assert (Hyx : String.leb y x = true)
        by (destruct (String.leb_total x y); congruence).
      rewrite Forall_forall in Hall |- *. intros z Hz.
      apply (Permutation_in _ (insert_perm x t)) in Hz.
      destruct Hz as [<-|Hz]; auto.
Qed.

Lemma sort_sorted (l : list string) : Gui.sorted (PyList.sort l).
Proof.
  induction l as [|x t IH]; simpl; [constructor | now apply insert_sorted].
Qed.

Lemma sorted_unique (l1 l2 : list string) :
  Gui.sorted l1 -> Gui.sorted l2 -> Permutation l1 l2 -> l1 = l2.
Proof.
  unfold Gui.sorted. revert l2.
  induction l1 as [|x t IH]; intros l2 H1 H2 Hp.
  - apply Permutation_nil in Hp. now subst.
  - destruct l2 as [|y u]; [now apply Permutation_sym, Permutation_nil in Hp|].
    inversion H1 as [|? ? Ht Hx]; inversion H2 as [|? ? Hu Hy]; subst.
    assert (x = y) as ->.
    { rewrite Forall_forall in Hx, Hy.
      assert (In y (x :: t))
        by (apply (Permutation_in _ (Permutation_sym Hp)); now left).
      assert (In x (y :: u)) by (apply (Permutation_in _ Hp); now left).
      destruct H as [->|Hin]; [reflexivity|].
      destruct H0 as [->|Hin']; [reflexivity|].
      apply String.leb_antisym; auto. }
    f_equal. apply IH; try assumption.
    now apply Permutation_cons_inv in Hp.
Qed.

Lemma sort_sorted_id (l : list string) : Gui.sorted l -> PyList.sort l = l.
Proof.
  intros Hs. apply sorted_unique; [apply sort_sorted | assumption | apply sort_perm].
Qed.

Lemma remove_present (x : string) (l : list string) :
  In x l ->
  exists l', PyList.remove x l = inr l' /\ Permutation l (x :: l').
Proof.
  induction l as [|y t IH]; simpl; [contradiction|]. intros Hin.
  destruct (String.eqb_spec y x) as [->|Hne].
  - exists t. split; reflexivity.
  - destruct Hin as [Heq|Hin]; [contradiction|].
    destruct (IH Hin) as (t' & -> & Hp). exists (y :: t'). split; [reflexivity|].
    rewrite Hp. apply perm_swap.
Qed.


Lemma remove_sorted (x : string) (l l' : list string) :
  Gui.sorted l -> PyList.remove x l = inr l' -> Gui.sorted l'.
Proof.
  unfold Gui.sorted. revert l'.
  induction l as [|y t IH]; simpl; intros l' Hs; [discriminate|].
  inversion Hs as [|? ? Ht Hall]; subst.
  destruct (String.eqb y x); [intros H; inversion H; now subst|].
  destruct (PyList.remove x t) as [e|t'] eqn:Hr; [discriminate|].
  intros H; inversion H; subst. constructor; [now apply IH|].
  assert (Hin : forall z, In z t' -> In z t).
  { clear -Hr. revert t' Hr. induction t as [|a t IH]; simpl; intros t' Hr;
      [discriminate|].
    destruct (String.eqb a x); [inversion Hr; subst; auto|].
    destruct (PyList.remove x t) as [e|t''] eqn:Hr'; [discriminate|].
    inversion Hr; subst. intros z [->|Hz]; [now left | right; eauto]. }
  rewrite Forall_forall in Hall |- *. auto.
Qed.

Lemma sizer_shows_active (l acc : list string) :
  fold_left (fun sizer monitor => (sizer ++ [monitor])%list) l acc
  = (acc ++ l)%list.
Proof.
  revert acc. induction l as [|x t IH]; intros acc; simpl.
  - now rewrite app_nil_r.
  - rewrite IH, <- app_assoc. reflexivity.
Qed.

(** ** The monitor buttons *)

Lemma add_chosen (g : Gui.t) (s : string) :
  In s (Gui.monitors_inactive_list g) ->
  exists g',
    Gui.on_add_monitor_button (Gui.Chosen s) g = (inr tt, g')
    /\ Permutation (Gui.monitors_active_list g')
         (s :: Gui.monitors_active_list g)
    /\ Permutation (Gui.monitors_inactive_list g)
         (s :: Gui.monitors_inactive_list g')
    /\ Gui.sorted (Gui.monitors_active_list g')
    /\ Gui.sorted (Gui.monitors_inactive_list g')
    /\ Gui.monitors_scrolled_sizer g' = Gui.monitors_active_list g'.
Proof.
  intros Hin. destruct (remove_present s _ Hin) as (i' & Hr & Hp).
  eexists. unfold Gui.on_add_monitor_button. rewrite Hr.
  split; [reflexivity|]. cbn. repeat split.
  - rewrite sort_perm. apply Permutation_sym, Permutation_cons_append.
  - rewrite Hp. constructor. apply Permutation_sym, sort_perm.
  - apply sort_sorted.
  - apply sort_sorted.
  - apply sizer_shows_active.
Qed.

Lemma remove_chosen (g : Gui.t) (s : string) :
  In s (Gui.monitors_active_list g) ->
  exists g',
    Gui.on_remove_monitor_button (Gui.Chosen s) g = (inr tt, g')
    /\ Permutation (Gui.monitors_active_list g)
         (s :: Gui.monitors_active_list g')
    /\ Permutation (Gui.monitors_inactive_list g')
         (s :: Gui.monitors_inactive_list g)
    /\ Gui.sorted (Gui.monitors_active_list g')
    /\ Gui.sorted (Gui.monitors_inactive_list g')
    /\ Gui.monitors_scrolled_sizer g' = Gui.monitors_active_list g'.
Proof.
  intros Hin. destruct (remove_present s _ Hin) as (a' & Hr & Hp).
  eexists. unfold Gui.on_remove_monitor_button. rewrite Hr.
  split; [reflexivity|]. cbn. repeat split.
  - rewrite Hp. constructor. apply Permutation_sym, sort_perm.
  - rewrite sort_perm. apply Permutation_sym, Permutation_cons_append.
  - apply sort_sorted.
  - apply sort_sorted.
  - apply sizer_shows_active.
Qed.

(** X19: when the selection is one of the inactive monitors, as the
    dialog of [Add] offers them, [on_add_monitor_button] returns and
    moves one occurrence of the selection from the inactive to the
    active list; both lists end sorted and the sizer shows the active
    list. *)
Theorem on_add_monitor_button_moves :
  forall g s,
    In s (Gui.monitors_inactive_list g) ->
    exists g',
      Gui.on_add_monitor_button (Gui.Chosen s) g = (inr tt, g')
      /\ Permutation (Gui.monitors_active_list g')
           (s :: Gui.monitors_active_list g)
      /\ Permutation (Gui.monitors_inactive_list g)
           (s :: Gui.monitors_inactive_list g')
      /\ Gui.sorted (Gui.monitors_active_list g')
      /\ Gui.sorted (Gui.monitors_inactive_list g')
      /\ Gui.monitors_scrolled_sizer g' = Gui.monitors_active_list g'.
Proof. intros g s. apply add_chosen. Qed.

Lemma on_add_monitor_button_moves_witness :
  exists g',
    Gui.on_add_monitor_button (Gui.Chosen "G4") Gui.init_monitors = (inr tt, g')
    /\ Permutation (Gui.monitors_active_list g')
         ("G4" :: Gui.monitors_active_list Gui.init_monitors)
    /\ Permutation (Gui.monitors_inactive_list Gui.init_monitors)
         ("G4" :: Gui.monitors_inactive_list g')
    /\ Gui.sorted (Gui.monitors_active_list g')
    /\ Gui.sorted (Gui.monitors_inactive_list g')
    /\ Gui.monitors_scrolled_sizer g' = Gui.monitors_active_list g'.
Proof.
  apply (on_add_monitor_button_moves Gui.init_monitors "G4").
  simpl. tauto.
Defined.

(** X20: when the selection is one of the active monitors, as the dialog
    of [Remove] offers them, [on_remove_monitor_button] returns and moves
    one occurrence of the selection from the active to the inactive
    list; both lists end sorted and the sizer shows the active list. *)
Theorem on_remove_monitor_button_moves :
  forall g s,
    In s (Gui.monitors_active_list g) ->
    exists g',
      Gui.on_remove_monitor_button (Gui.Chosen s) g = (inr tt, g')
      /\ Permutation (Gui.monitors_active_list g)
           (s :: Gui.monitors_active_list g')
      /\ Permutation (Gui.monitors_inactive_list g')
           (s :: Gui.monitors_inactive_list g)
      /\ Gui.sorted (Gui.monitors_active_list g')
      /\ Gui.sorted (Gui.monitors_inactive_list g')
      /\ Gui.monitors_scrolled_sizer g' = Gui.monitors_active_list g'.
Proof. intros g s. apply remove_chosen. Qed.

Lemma on_remove_monitor_button_moves_witness :
  exists g',
    Gui.on_remove_monitor_button (Gui.Chosen "G1") Gui.init_monitors = (inr tt, g')
    /\ Permutation (Gui.monitors_active_list Gui.init_monitors)
         ("G1" :: Gui.monitors_active_list g')
    /\ Permutation (Gui.monitors_inactive_list g')
         ("G1" :: Gui.monitors_inactive_list Gui.init_monitors)
    /\ Gui.sorted (Gui.monitors_active_list g')
    /\ Gui.sorted (Gui.monitors_inactive_list g')
    /\ Gui.monitors_scrolled_sizer g' = Gui.monitors_active_list g'.
Proof.
  apply (on_remove_monitor_button_moves Gui.init_monitors "G1").
  simpl. tauto.
Defined.



(** X22: on sorted lists shown by the sizer, adding an inactive monitor
    and then removing it, or removing an active monitor and then adding
    it, gives back the state before the two clicks. *)
Theorem monitor_buttons_round_trip :
  forall g s,
    Gui.sorted (Gui.monitors_active_list g) ->
    Gui.sorted (Gui.monitors_inactive_list g) ->
    Gui.monitors_scrolled_sizer g = Gui.monitors_active_list g ->
    (In s (Gui.monitors_inactive_list g) ->
     Gui.on_remove_monitor_button (Gui.Chosen s)
       (snd (Gui.on_add_monitor_button (Gui.Chosen s) g)) = (inr tt, g))
    /\ (In s (Gui.monitors_active_list g) ->
        Gui.on_add_monitor_button (Gui.Chosen s)
          (snd (Gui.on_remove_monitor_button (Gui.Chosen s) g)) = (inr tt, g)).
Proof.
  intros g s Ha Hi Hsz. split; intros Hin.
  - destruct (remove_present s _ Hin) as (i1 & Hr & Hp).
    unfold Gui.on_add_monitor_button. rewrite Hr. cbn [snd].
    unfold Gui.on_remove_monitor_button, Gui.update_monitors_display.
    cbn [Gui.monitors_active_list Gui.monitors_inactive_list
         Gui.monitors_scrolled_sizer].
    assert (Hin' : In s (PyList.sort (Gui.monitors_active_list g ++ [s]))).
    { apply (Permutation_in _ (Permutation_sym (sort_perm _))).
      apply in_or_app. right. now left. }
    destruct (remove_present s _ Hin') as (a1 & Hr' & Hp'). rewrite Hr'.
    assert (Ea : PyList.sort a1 = Gui.monitors_active_list g).
    { apply sorted_unique; [apply sort_sorted | assumption |].
      rewrite sort_perm. apply (Permutation_cons_inv (a := s)).
      rewrite <- Hp', sort_perm. apply Permutation_sym, Permutation_cons_append. }
    assert (Ei : PyList.sort (PyList.sort i1 ++ [s])
                 = Gui.monitors_inactive_list g).
    { apply sorted_unique; [apply sort_sorted | assumption |].
      rewrite sort_perm, <- Permutation_cons_append, sort_perm.
      now apply Permutation_sym. }
    rewrite Ea, Ei, sizer_shows_active. cbn [app].
    f_equal. destruct g; cbn in *; now subst.
  - destruct (remove_present s _ Hin) as (a1 & Hr & Hp).
    unfold Gui.on_remove_monitor_button. rewrite Hr. cbn [snd].
    unfold Gui.on_add_monitor_button, Gui.update_monitors_display.
    cbn [Gui.monitors_active_list Gui.monitors_inactive_list
         Gui.monitors_scrolled_sizer].
    assert (Hin' : In s (PyList.sort (Gui.monitors_inactive_list g ++ [s]))).
    { apply (Permutation_in _ (Permutation_sym (sort_perm _))).
      apply in_or_app. right. now left. }
    destruct (remove_present s _ Hin') as (i1 & Hr' & Hp'). rewrite Hr'.
    assert (Ei : PyList.sort i1 = Gui.monitors_inactive_list g).
    { apply sorted_unique; [apply sort_sorted | assumption |].
      rewrite sort_perm. apply (Permutation_cons_inv (a := s)).
      rewrite <- Hp', sort_perm. apply Permutation_sym, Permutation_cons_append. }
    assert (Ea : PyList.sort (PyList.sort a1 ++ [s])
                 = Gui.monitors_active_list g).
    { apply sorted_unique; [apply sort_sorted | assumption |].
      rewrite sort_perm, <- Permutation_cons_append, sort_perm.
      now apply Permutation_sym. }
    rewrite Ea, Ei, sizer_shows_active. cbn [app].
    f_equal. destruct g; cbn in *; now subst.
Qed.

Lemma monitor_buttons_round_trip_witness :
  Gui.on_remove_monitor_button (Gui.Chosen "G4")
    (snd (Gui.on_add_monitor_button (Gui.Chosen "G4") Gui.init_monitors))
  = (inr tt, Gui.init_monitors)
  /\ Gui.on_add_monitor_button (Gui.Chosen "G1")
       (snd (Gui.on_remove_monitor_button (Gui.Chosen "G1") Gui.init_monitors))
     = (inr tt, Gui.init_monitors).
Proof.
  assert (Ha : Gui.sorted (Gui.monitors_active_list Gui.init_monitors))
    by (repeat constructor).
  assert (Hi : Gui.sorted (Gui.monitors_inactive_list Gui.init_monitors))
    by (repeat constructor).
  split.
  - apply (proj1 (monitor_buttons_round_trip Gui.init_monitors "G4"
                    Ha Hi eq_refl)).
    simpl. tauto.
  - apply (proj2 (monitor_buttons_round_trip Gui.init_monitors "G1"
                    Ha Hi eq_refl)).
    simpl. tauto.
Defined.

(** X23: in every state the window can reach from [__init__] through
    the two monitor buttons, the active and the inactive list are
    sorted, the sizer shows the active list, and the two lists together
    hold each of the five monitors of [__init__] exactly once. *)
Theorem reachable_monitor_lists :
  forall g,
    Gui.reachable g ->
    Gui.sorted (Gui.monitors_active_list g)
    /\ Gui.sorted (Gui.monitors_inactive_list g)
    /\ Gui.monitors_scrolled_sizer g = Gui.monitors_active_list g
    /\ Permutation (Gui.monitors_active_list g ++ Gui.monitors_inactive_list g)
         ["G1"; "G2"; "G3"; "G4"; "G5"]
    /\ NoDup (Gui.monitors_active_list g ++ Gui.monitors_inactive_list g)%list.
Proof.
  assert (Hnd : NoDup ["G1"; "G2"; "G3"; "G4"; "G5"]).
  { repeat (constructor;
            [simpl; intros H;
             repeat (destruct H as [H|H]; [discriminate H|]); exact H|]).
    constructor. }
  assert (Main : forall g, Gui.reachable g ->
    Gui.sorted (Gui.monitors_active_list g)
    /\ Gui.sorted (Gui.monitors_inactive_list g)
    /\ Gui.monitors_scrolled_sizer g = Gui.monitors_active_list g
    /\ Permutation (Gui.monitors_active_list g ++ Gui.monitors_inactive_list g)
         ["G1"; "G2"; "G3"; "G4"; "G5"]).
  { intros g Hreach.
    induction Hreach as [| g dialog g' _ IH Hoffer Hrun
                         | g dialog g' _ IH Hoffer Hrun].
    - repeat split; repeat constructor.
    - destruct dialog as [s|]; [|inversion Hrun; now subst].
      destruct (add_chosen g s (Hoffer s eq_refl))
        as (g1 & Hrun1 & Pa & Pi & Sa & Si & Hsz).
      rewrite Hrun1 in Hrun. inversion Hrun; subst g1.
      destruct IH as (_ & _ & _ & Hp). repeat split; try assumption.
      rewrite <- Hp, Pa, Pi. cbn [app].
      apply Permutation_middle.
    - destruct dialog as [s|]; [|inversion Hrun; now subst].
      destruct (remove_chosen g s (Hoffer s eq_refl))
        as (g1 & Hrun1 & Pa & Pi & Sa & Si & Hsz).
      rewrite Hrun1 in Hrun. inversion Hrun; subst g1.
      destruct IH as (_ & _ & _ & Hp). repeat split; try assumption.
      rewrite <- Hp, Pa, Pi. cbn [app].
      apply Permutation_sym, Permutation_middle. }
  intros g Hreach. destruct (Main g Hreach) as (Sa & Si & Hsz & Hp).
  repeat split; try assumption.
  apply (Permutation_NoDup (Permutation_sym Hp) Hnd).
Qed.

Lemma reachable_monitor_lists_witness :
  Gui.sorted ["G1"; "G2"; "G4"]
  /\ Gui.sorted ["G3"; "G5"]
  /\ ["G1"; "G2"; "G4"] = ["G1"; "G2"; "G4"]
  /\ Permutation (["G1"; "G2"; "G4"] ++ ["G3"; "G5"])
       ["G1"; "G2"; "G3"; "G4"; "G5"]
  /\ NoDup (["G1"; "G2"; "G4"] ++ ["G3"; "G5"])%list.
Proof.
  apply (reachable_monitor_lists
           {| Gui.monitors_active_list := ["G1"; "G2"; "G4"];
              Gui.monitors_inactive_list := ["G3"; "G5"];
              Gui.monitors_scrolled_sizer := ["G1"; "G2"; "G4"] |}).
  apply (Gui.reach_add Gui.init_monitors (Gui.Chosen "G4")).
  - apply Gui.reach_init.
  - intros s H. inversion H; subst. simpl. tauto.
  - reflexivity.
Defined.

(** ** Text on the canvas *)

Lemma render_characters_lines (characters : Canvas.text) (x y : Z) :
  Canvas.glRasterPos2f x y :: Canvas.render_characters characters x y
  = Canvas.draw_lines x y (Canvas.lines_of characters).
Proof.
  revert y. induction characters as [|c t IH]; intros y; [reflexivity|].
  cbn [Canvas.render_characters Canvas.lines_of].
  destruct (c =? 10).
  - rewrite IH. reflexivity.
  - specialize (IH y). destruct (Canvas.lines_of t) as [|l ls].
    + discriminate IH.
    + cbn in IH |- *. inversion IH as [Hrest]. now rewrite Hrest.
Qed.

(** X24: [render_text] sets the colour and then draws the text line by
    line: each piece of the text between newline characters starts at a
    raster position of its own, at [x_pos] and 20 units below the
    previous piece, and its characters are drawn in order, each with
    its code point. *)
Theorem render_text_by_lines :
  forall (characters : Canvas.text) x_pos y_pos,
    Canvas.render_text characters x_pos y_pos
    = Canvas.glColor3f_black
        :: Canvas.draw_lines x_pos y_pos (Canvas.lines_of characters).
Proof.
  intros characters x y. unfold Canvas.render_text.
  now rewrite render_characters_lines.
Qed.

Lemma raster_positions_draw_lines (x y : Z) (lines : list Canvas.text) :
  Canvas.raster_positions (Canvas.draw_lines x y lines)
  = map (fun k => (x, y - 20 * Z.of_nat k)) (seq 0 (List.length lines)).
Proof.
  revert y. induction lines as [|l ls IH]; intros y; [reflexivity|].
  cbn [Canvas.draw_lines Canvas.draw_line List.length seq map app
       Canvas.raster_positions].
  rewrite Z.mul_0_r, Z.sub_0_r. f_equal.
  assert (Hline : forall cs rest,
    Canvas.raster_positions (map Canvas.glutBitmapCharacter cs ++ rest)
    = Canvas.raster_positions rest).
  { induction cs as [|c cs IHc]; intros rest; simpl; auto. }
  rewrite Hline, IH, <- seq_shift, map_map.
  apply map_ext. intros k. f_equal. lia.
Qed.

Lemma drawn_render_characters (characters : Canvas.text) (x y : Z) :
  Canvas.drawn (Canvas.render_characters characters x y)
  = filter (fun c => negb (c =? 10)) characters.
Proof.
  revert y. induction characters as [|c t IH]; intros y; [reflexivity|].
  cbn [Canvas.render_characters filter].
  destruct (c =? 10); cbn [negb Canvas.drawn]; now rewrite IH.
Qed.

Lemma lines_of_length (characters : Canvas.text) :
  List.length (Canvas.lines_of characters)
  = S (List.length (filter (fun c => c =? 10) characters)).
Proof.
  induction characters as [|c t IH]; [reflexivity|].
  cbn [Canvas.lines_of filter]. destruct (c =? 10).
  - cbn [List.length]. now rewrite IH.
  - destruct (Canvas.lines_of t) as [|l ls]; [discriminate IH|].
    cbn [List.length] in IH |- *. exact IH.
Qed.

(** X25: the raster positions set by [render_text] are one more than
    the newline characters of the text, all at [x_pos], the k-th one
    20 k units below [y_pos]; the characters drawn are the characters
    of the text without its newlines, in order, each with its code
    point. *)
Theorem render_text_layout :
  forall (characters : Canvas.text) x_pos y_pos,
    Canvas.raster_positions (Canvas.render_text characters x_pos y_pos)
    = map (fun k => (x_pos, y_pos - 20 * Z.of_nat k))
          (seq 0 (S (List.length (filter (fun c => c =? 10) characters))))
    /\ Canvas.drawn (Canvas.render_text characters x_pos y_pos)
       = filter (fun c => negb (c =? 10)) characters.
Proof.
  intros characters x y. split.
  - unfold Canvas.render_text.
    change (Canvas.raster_positions
              (Canvas.glRasterPos2f x y :: Canvas.render_characters characters x y)
            = map (fun k => (x, y - 20 * Z.of_nat k))
                  (seq 0 (S (List.length (filter (fun c => c =? 10) characters))))).
    now rewrite render_characters_lines, raster_positions_draw_lines,
      lines_of_length.
  - unfold Canvas.render_text. cbn [Canvas.drawn].
    apply drawn_render_characters.
Qed.

(** The text "a€" followed by a newline and "b": the euro sign is one
    character, drawn with its code point 8364. *)
Example render_text_euro :
  Canvas.render_text [97; 8364; 10; 98] 10 10
  = [Canvas.glColor3f_black; Canvas.glRasterPos2f 10 10;
     Canvas.glutBitmapCharacter 97; Canvas.glutBitmapCharacter 8364;
     Canvas.glRasterPos2f 10 (-10); Canvas.glutBitmapCharacter 98].
Proof. reflexivity. Qed.
